(** * Convergence checks of [krotov.convergence]

    A shallow embedding of [src/krotov/convergence.py] and the properties of
    its check-convergence constructors: [Or], [value_below], [value_above],
    [delta_below], [check_monotonic_error], [check_monotonic_fidelity] and
    [dump_result].

    The module is Python, so the embedding comes in three layers:
    - [Py]: the fragment of the Python runtime the module relies on
      (exceptions, values, binary64 floats, [float()], [int()], [str()],
      [abs()], [-], [<], truthiness, list indexing, [str.format]);
    - [Glom]: the fragment of the third-party [glom] library used for the
      extraction of values from a [Result];
    - the functions of [convergence.py] themselves.

    A result of an expression is a value or a raised exception
    ([outcome]); a check also threads the [world], the log of the calls of
    [Result.dump].  Callables given as specs are functions of the record
    without effects; what such a function raises stands for what the
    extraction raises, after any wrapping by [glom]. *)

From Stdlib Require Import ZArith Bool List String Ascii Lia.
From Stdlib Require Import Floats DecimalString.
From Stdlib Require DecimalPos.
Import ListNotations.

Open Scope string_scope.
Open Scope Z_scope.

Set Warnings "-register-all".

(** ** The Python runtime fragment *)

Module Py.

(** *** Exceptions

    An exception is its class and the text [str(exc)] gives for it. *)

Inductive exc_class :=
| AttributeError
| KeyError
| IndexError
| TypeError
| ValueError
| OverflowError
| OSError              (* [IOError] is an alias of [OSError] in Python 3 *)
| FileNotFoundError
| PermissionError
| GlomError            (* [glom.GlomError] *)
| PathAccessError      (* [glom.PathAccessError] *)
| OtherError (name : string).

Record exc := Exc { exc_cls : exc_class; exc_str : string }.

(** [issubclass c d]: class [c] is [d] or derives from it.
    [glom.PathAccessError] derives from [GlomError], [AttributeError],
    [KeyError] and [IndexError]; [FileNotFoundError] and [PermissionError]
    derive from [OSError]. *)
Definition issubclass (c d : exc_class) : bool :=
  match d, c with
  | AttributeError, (AttributeError | PathAccessError) => true
  | KeyError, (KeyError | PathAccessError) => true
  | IndexError, (IndexError | PathAccessError) => true
  | GlomError, (GlomError | PathAccessError) => true
  | PathAccessError, PathAccessError => true
  | TypeError, TypeError => true
  | ValueError, ValueError => true
  | OverflowError, OverflowError => true
  | OSError, (OSError | FileNotFoundError | PermissionError) => true
  | FileNotFoundError, FileNotFoundError => true
  | PermissionError, PermissionError => true
  | OtherError n, OtherError m => String.eqb n m
  | _, _ => false
  end.

(** [except (c1, ..., cn) as exc] catches [e]. *)
Definition except (clause : list exc_class) (e : exc) : bool :=
  existsb (issubclass (exc_cls e)) clause.

(** The result of evaluating an expression: a value, or a raised exception. *)
Inductive outcome (A : Type) :=
| Return (a : A)
| Raise (e : exc).
Arguments Return {A} a.
Arguments Raise {A} e.

Definition obind {A B} (m : outcome A) (k : A -> outcome B) : outcome B :=
  match m with
  | Return a => k a
  | Raise e => Raise e
  end.

(** *** Values *)

Inductive pyval :=
| PNone
| PBool (b : bool)
| PInt (z : Z)
| PFloat (f : spec_float)      (* IEEE 754 binary64 *)
| PStr (s : string)
| PList (l : list pyval)
| PObj (type_name repr : string).   (* any other object: no numeric protocol, truthy *)

Definition is_None (v : pyval) : bool :=
  match v with PNone => true | _ => false end.

Definition type_name (v : pyval) : string :=
  match v with
  | PNone => "NoneType"
  | PBool _ => "bool"
  | PInt _ => "int"
  | PFloat _ => "float"
  | PStr _ => "str"
  | PList _ => "list"
  | PObj t _ => t
  end.

(** *** Sequences: [l[i]] with Python's negative indices *)

Definition py_index {A} (l : list A) (i : Z) : option A :=
  let n := Z.of_nat (List.length l) in
  if (0 <=? i) && (i <? n) then nth_error l (Z.to_nat i)
  else if (- n <=? i) && (i <? 0) then nth_error l (Z.to_nat (n + i))
  else None.

(** *** Text helpers *)

Definition str_of_Z (z : Z) : string := NilZero.string_of_int (Z.to_int z).

Definition quote (s : string) : string := "'" ++ s ++ "'".

Definition digit_of (c : ascii) : option Z :=
  let n := Z.of_N (N_of_ascii c) in
  if (48 <=? n) && (n <=? 57) then Some (n - 48) else None.

(** Reads a run of decimal digits: the number read on top of [acc], how many
    digits were read, and the rest of the text. *)
Fixpoint read_digits (s : string) (acc count : Z) : Z * Z * string :=
  match s with
  | String c rest =>
      match digit_of c with
      | Some d => read_digits rest (10 * acc + d) (count + 1)
      | None => (acc, count, s)
      end
  | EmptyString => (acc, count, s)
  end.

Definition read_sign (s : string) : bool * string :=
  match s with
  | String "-" rest => (true, rest)
  | String "+" rest => (false, rest)
  | _ => (false, s)
  end.

(** Underscores in a numeric literal, as [int] and [float] read them: one
    underscore is allowed between two digits, and is dropped; [prev] is the
    character read before [s]. *)
Fixpoint drop_underscores (prev : ascii) (s : string) : option string :=
  match s with
  | EmptyString => if Ascii.eqb prev "_" then None else Some EmptyString
  | String c rest =>
      if Ascii.eqb c "_" then
        match digit_of prev with
        | Some _ => drop_underscores c rest
        | None => None
        end
      else
        match Ascii.eqb prev "_", digit_of c with
        | true, None => None
        | _, _ => option_map (String c) (drop_underscores c rest)
        end
  end.

Definition is_space (c : ascii) : bool :=
  let n := Z.of_N (N_of_ascii c) in
  (n =? 32) || ((9 <=? n) && (n <=? 13)).

Fixpoint lstrip (s : string) : string :=
  match s with
  | String c rest => if is_space c then lstrip rest else s
  | EmptyString => s
  end.

Definition rev_string (s : string) : string :=
  string_of_list_ascii (rev (list_ascii_of_string s)).

Definition strip (s : string) : string :=
  rev_string (lstrip (rev_string (lstrip s))).

Definition lower_char (c : ascii) : ascii :=
  let n := N_of_ascii c in
  if (65 <=? n)%N && (n <=? 90)%N then ascii_of_N (n + 32) else c.

Fixpoint lower (s : string) : string :=
  match s with
  | String c rest => String (lower_char c) (lower rest)
  | EmptyString => EmptyString
  end.

(** *** binary64

    Floats are Stdlib's [spec_float] with the binary64 parameters
    [prec = 53], [emax = 1024]; every operation rounds to nearest, ties to
    even, as CPython's does. *)

Definition fzero : spec_float := S754_zero false.
Definition fsub : spec_float -> spec_float -> spec_float := SFsub prec emax.
Definition fabs : spec_float -> spec_float := SFabs.
Definition flt : spec_float -> spec_float -> bool := SFltb.

(** The floats of the machine: canonical mantissa, exponent in range. *)
Definition is_binary64 (f : spec_float) : Prop := valid_binary f = true.

Definition sf_same (a b : spec_float) : bool :=
  match a, b with
  | S754_zero s, S754_zero t => Bool.eqb s t
  | S754_infinity s, S754_infinity t => Bool.eqb s t
  | S754_nan, S754_nan => true
  | S754_finite s m e, S754_finite t n f => Bool.eqb s t && Pos.eqb m n && (e =? f)
  | _, _ => false
  end.

(** The binary64 nearest to [(-1)^neg * m * 10^e10], for [m >= 0]. *)
Definition decimal_to_float (neg : bool) (m e10 : Z) : spec_float :=
  match m with
  | Zpos p =>
      if 0 <=? e10
      then binary_normalize prec emax (cond_Zopp neg (m * 10 ^ e10)) 0 false
      else SFdiv prec emax (S754_finite neg p 0)
                           (S754_finite false (Z.to_pos (10 ^ (- e10))) 0)
  | _ => S754_zero neg
  end.

(** [float(z)] for an [int]. *)
Definition float_of_Z (z : Z) : outcome spec_float :=
  match binary_normalize prec emax z 0 false with
  | S754_infinity _ => Raise (Exc OverflowError "int too large to convert to float")
  | f => Return f
  end.

Definition read_exponent (s : string) : option (Z * string) :=
  match s with
  | String c rest =>
      if Ascii.eqb c "e" || Ascii.eqb c "E" then
        let '(neg, r1) := read_sign rest in
        let '(v, n, r2) := read_digits r1 0 0 in
        if n =? 0 then None else Some (cond_Zopp neg v, r2)
      else Some (0, s)
  | EmptyString => Some (0, s)
  end.

(** A decimal literal [digits [. digits] [e [sign] digits]] as mantissa and
    power of ten. *)
Definition parse_decimal (s : string) : option (Z * Z) :=
  let '(ip, ni, r1) := read_digits s 0 0 in
  let '(m, nf, r2) :=
    match r1 with
    | String "." r => read_digits r ip 0
    | _ => (ip, 0, r1)
    end in
  if ni + nf =? 0 then None
  else match read_exponent r2 with
       | Some (e, EmptyString) => Some (m, e - nf)
       | _ => None
       end.

(** [float(s)] for a [str] of ASCII characters: surrounding white space, an
    optional sign, then [inf], [infinity], [nan] (any case) or a decimal
    literal, with underscores between its digits. *)
Definition float_of_str (s : string) : outcome spec_float :=
  let fail := Raise (Exc ValueError ("could not convert string to float: " ++ quote s)) in
  match drop_underscores "000" (strip s) with
  | Some txt =>
      let '(neg, body) := read_sign txt in
      let low := lower body in
      if String.eqb low "inf" || String.eqb low "infinity" then Return (S754_infinity neg)
      else if String.eqb low "nan" then Return S754_nan
      else match parse_decimal body with
           | Some (m, e10) => Return (decimal_to_float neg m e10)
           | None => fail
           end
  | None => fail
  end.

(** *** [repr] of a float: the shortest decimal text that reads back as the
    same float, the closest one when there are several, laid out as CPython
    does (format code ['r']). *)

(** [num/den < 10^t] *)
Definition below_pow10 (num den t : Z) : bool :=
  if 0 <=? t then num <? den * 10 ^ t else num * 10 ^ (- t) <? den.

Fixpoint find_decpt (fuel : nat) (num den t : Z) : Z :=
  match fuel with
  | O => t
  | S fuel' => if below_pow10 num den t then t else find_decpt fuel' num den (t + 1)
  end.

(** Searches the number of digits [n, n+1, ...]: [(d, p)] with [d * 10^p]
    reading back as [x], for the positive float [x = num/den] with
    [10^(t-1) <= x < 10^t]. *)
Fixpoint shortest_digits (fuel : nat) (x : spec_float) (num den t n : Z) : Z * Z :=
  let p := t - n in
  let '(a, b) := if 0 <=? p then (num, den * 10 ^ p) else (num * 10 ^ (- p), den) in
  let lo := a / b in
  let r := a mod b in
  let hi := lo + 1 in
  let ok_lo := (0 <? lo) && sf_same (decimal_to_float false lo p) x in
  let ok_hi := sf_same (decimal_to_float false hi p) x in
  let hi_closer := (b <? 2 * r) || ((b =? 2 * r) && Z.odd lo) in
  match fuel with
  | O => (if hi_closer then hi else lo, p)
  | S fuel' =>
      if ok_hi && (negb ok_lo || hi_closer) then (hi, p)
      else if ok_lo then (lo, p)
      else shortest_digits fuel' x num den t (n + 1)
  end.

Fixpoint strip_zeros (fuel : nat) (d p : Z) : Z * Z :=
  match fuel with
  | O => (d, p)
  | S fuel' => if (d mod 10 =? 0) && (0 <? d) then strip_zeros fuel' (d / 10) (p + 1) else (d, p)
  end.

Definition zeros (n : Z) : string :=
  string_of_list_ascii (repeat "0"%char (Z.to_nat n)).

Definition repr_finite (neg : bool) (m : positive) (e : Z) : string :=
  let '(num, den) := if 0 <=? e then (Zpos m * 2 ^ e, 1) else (Zpos m, 2 ^ (- e)) in
  let b := Zpos (digits2_pos m) + e in
  let t := find_decpt 4 num den (b * 30103 / 100000 - 1) in
  let '(d, p) := shortest_digits 16 (S754_finite false m e) num den t 1 in
  let '(d, p) := strip_zeros 20 d p in
  let ds := str_of_Z d in
  let nd := Z.of_nat (String.length ds) in
  let decpt := p + nd in
  let body :=
    if (decpt <=? -4) || (16 <? decpt) then
      let x := decpt - 1 in
      let xs := str_of_Z (Z.abs x) in
      substring 0 1 ds
      ++ (if 1 <? nd then "." ++ substring 1 (String.length ds - 1) ds else "")
      ++ "e" ++ (if x <? 0 then "-" else "+")
      ++ (if Z.abs x <? 10 then "0" else "") ++ xs
    else if decpt <=? 0 then "0." ++ zeros (- decpt) ++ ds
    else if decpt <? nd then
      substring 0 (Z.to_nat decpt) ds ++ "."
      ++ substring (Z.to_nat decpt) (String.length ds - Z.to_nat decpt) ds
    else ds ++ zeros (decpt - nd) ++ ".0" in
  (if neg then "-" else "") ++ body.

Definition repr_float (f : spec_float) : string :=
  match f with
  | S754_nan => "nan"
  | S754_infinity s => if s then "-inf" else "inf"
  | S754_zero s => if s then "-0.0" else "0.0"
  | S754_finite s m e => repr_finite s m e
  end.

(** *** Built-in conversions and operators *)

(** [int] and [bool] operands of an arithmetic operator: a [bool] counts as
    the integer 0 or 1. *)
Definition as_int (v : pyval) : option Z :=
  match v with
  | PInt z => Some z
  | PBool b => Some (if b then 1 else 0)
  | _ => None
  end.

(** [float(v)] *)
Definition py_float (v : pyval) : outcome spec_float :=
  match v with
  | PFloat f => Return f
  | PInt z => float_of_Z z
  | PBool b => float_of_Z (if b then 1 else 0)
  | PStr s => float_of_str s
  | _ => Raise (Exc TypeError
           ("float() argument must be a string or a real number, not " ++ quote (type_name v)))
  end.

(** [int(s)] for a [str] of ASCII characters: surrounding white space, an
    optional sign and decimal digits, with underscores between them. *)
Definition int_of_str (s : string) : outcome Z :=
  let fail := Raise (Exc ValueError ("invalid literal for int() with base 10: " ++ quote s)) in
  match drop_underscores "000" (strip s) with
  | Some txt =>
      let '(neg, body) := read_sign txt in
      match read_digits body 0 0 with
      | (v, n, EmptyString) => if n =? 0 then fail else Return (cond_Zopp neg v)
      | _ => fail
      end
  | None => fail
  end.

(** [int(v)]: a float is truncated towards zero. *)
Definition py_int (v : pyval) : outcome Z :=
  match v with
  | PInt z => Return z
  | PBool b => Return (if b then 1 else 0)
  | PFloat S754_nan => Raise (Exc ValueError "cannot convert float NaN to integer")
  | PFloat (S754_infinity _) =>
      Raise (Exc OverflowError "cannot convert float infinity to integer")
  | PFloat (S754_zero _) => Return 0
  | PFloat (S754_finite s m e) => Return (cond_Zopp s (Z.shiftl (Zpos m) e))
  | PStr s => int_of_str s
  | _ => Raise (Exc TypeError
           ("int() argument must be a string, a bytes-like object or a real number, not "
            ++ quote (type_name v)))
  end.

(** [repr(v)] and [str(v)].  The [repr] of a [str] is the text between
    single quotes; escapes are not modelled. *)
Fixpoint py_repr (v : pyval) : string :=
  match v with
  | PNone => "None"
  | PBool b => if b then "True" else "False"
  | PInt z => str_of_Z z
  | PFloat f => repr_float f
  | PStr s => quote s
  | PList l => "[" ++ String.concat ", " (map py_repr l) ++ "]"
  | PObj _ r => r
  end.

Definition py_str (v : pyval) : string :=
  match v with
  | PStr s => s
  | _ => py_repr v
  end.

(** [bool(v)] *)
Definition py_bool (v : pyval) : bool :=
  match v with
  | PNone => false
  | PBool b => b
  | PInt z => negb (z =? 0)
  | PFloat (S754_zero _) => false
  | PFloat _ => true
  | PStr s => negb (String.eqb s "")
  | PList l => match l with [] => false | _ => true end
  | PObj _ _ => true
  end.

(** [a - b] on numbers: integers subtract exactly, floats in binary64, and an
    integer meeting a float is converted with [float()] first. *)
Definition py_sub (a b : pyval) : outcome pyval :=
  match a, b with
  | PFloat x, PFloat y => Return (PFloat (fsub x y))
  | PFloat x, _ =>
      match as_int b with
      | Some z => obind (float_of_Z z) (fun y => Return (PFloat (fsub x y)))
      | None => Raise (Exc TypeError ("unsupported operand type(s) for -: "
                  ++ quote (type_name a) ++ " and " ++ quote (type_name b)))
      end
  | _, PFloat y =>
      match as_int a with
      | Some z => obind (float_of_Z z) (fun x => Return (PFloat (fsub x y)))
      | None => Raise (Exc TypeError ("unsupported operand type(s) for -: "
                  ++ quote (type_name a) ++ " and " ++ quote (type_name b)))
      end
  | _, _ =>
      match as_int a, as_int b with
      | Some x, Some y => Return (PInt (x - y))
      | _, _ => Raise (Exc TypeError ("unsupported operand type(s) for -: "
                  ++ quote (type_name a) ++ " and " ++ quote (type_name b)))
      end
  end.

(** [abs(v)] *)
Definition py_abs (v : pyval) : outcome pyval :=
  match v with
  | PFloat x => Return (PFloat (fabs x))
  | _ =>
      match as_int v with
      | Some z => Return (PInt (Z.abs z))
      | None => Raise (Exc TypeError ("bad operand type for abs(): " ++ quote (type_name v)))
      end
  end.

(** An integer against a float: Python compares the exact values. *)
Definition Z_lt_float (z : Z) (f : spec_float) : bool :=
  match f with
  | S754_nan => false
  | S754_infinity s => negb s
  | S754_zero _ => z <? 0
  | S754_finite s m e =>
      if 0 <=? e then z <? cond_Zopp s (Zpos m) * 2 ^ e
      else z * 2 ^ (- e) <? cond_Zopp s (Zpos m)
  end.

(** [v < l] where the right operand is a float, as in [v < float(limit)]. *)
Definition py_lt_float (v : pyval) (l : spec_float) : outcome bool :=
  match v with
  | PFloat x => Return (flt x l)
  | _ =>
      match as_int v with
      | Some z => Return (Z_lt_float z l)
      | None => Raise (Exc TypeError ("'<' not supported between instances of "
                  ++ quote (type_name v) ++ " and 'float'"))
      end
  end.

(** [v > l] where the right operand is a float: [l < v] with the operands
    exchanged. *)
Definition py_gt_float (v : pyval) (l : spec_float) : outcome bool :=
  match v with
  | PFloat x => Return (flt l x)
  | _ =>
      match as_int v with
      | Some z =>
          Return (match l with
                  | S754_nan => false
                  | S754_infinity s => s
                  | S754_zero _ => 0 <? z
                  | S754_finite s m e =>
                      if 0 <=? e then cond_Zopp s (Zpos m) * 2 ^ e <? z
                      else cond_Zopp s (Zpos m) <? z * 2 ^ (- e)
                  end)
      | None => Raise (Exc TypeError ("'>' not supported between instances of "
                  ++ quote (type_name v) ++ " and 'float'"))
      end
  end.

(** *** [str.format]

    [template.format(iter=value)] for an integer [value].  Modelled: literal
    text, the doubled braces, and replacement fields [{name}] and
    [{name:spec}] whose [spec] is [[0][width][d]].  Conversions ([!r]),
    attribute and index lookups in a field name, nested fields and the other
    format specifications are outside the model: what the functions below
    raise for them is not what Python does.  The properties use the
    formatter where it returns a text, and where a field has another plain
    name than [iter], which is a [KeyError] in Python too. *)

(** Splits at the first occurrence of [c]: the text before it and, when [c]
    occurs, the text after it. *)
Fixpoint split_at (c : ascii) (s : string) : string * option string :=
  match s with
  | EmptyString => (EmptyString, None)
  | String d rest =>
      if Ascii.eqb d c then (EmptyString, Some rest)
      else let '(a, b) := split_at c rest in (String d a, b)
  end.

Definition all_digits (s : string) : bool :=
  forallb (fun c => match digit_of c with Some _ => true | None => false end)
          (list_ascii_of_string s).

(** [format(value, spec)] for an integer.  The width is read into a
    [Py_ssize_t], of 64 bits here. *)
Definition format_int (value : Z) (spec : string) : outcome string :=
  let '(zero, s1) :=
    match spec with
    | String "0" r => (true, r)
    | _ => (false, spec)
    end in
  let '(width, _, s2) := read_digits s1 0 0 in
  if 9223372036854775807 <? width then
    Raise (Exc ValueError "Too many decimal digits in format string")
  else if String.eqb s2 "" || String.eqb s2 "d" then
    let digits := str_of_Z (Z.abs value) in
    let sign := if value <? 0 then "-" else "" in
    let pad := width - Z.of_nat (String.length sign + String.length digits) in
    Return (if zero then sign ++ zeros pad ++ digits
            else string_of_list_ascii (repeat " "%char (Z.to_nat pad)) ++ sign ++ digits)
  else Raise (Exc ValueError ("Invalid format specifier " ++ quote spec
                              ++ " for object of type 'int'")).

(** The replacement field [{field}]: the keyword [iter] is the only
    argument of the call. *)
Definition format_field (field : string) (value : Z) : outcome string :=
  let '(name, spec) := split_at ":" field in
  if String.eqb name "iter" then
    format_int value (match spec with Some s => s | None => "" end)
  else if all_digits name then
    Raise (Exc IndexError
      ("Replacement index " ++ (if String.eqb name "" then "0" else name)
       ++ " out of range for positional args tuple"))
  else Raise (Exc KeyError (quote name)).

Fixpoint format_from (fuel : nat) (template : string) (value : Z) : outcome string :=
  match fuel with
  | O => Return EmptyString
  | S fuel' =>
      match template with
      | EmptyString => Return EmptyString
      | String "{" (String "{" rest) =>
          obind (format_from fuel' rest value) (fun out => Return (String "{" out))
      | String "}" (String "}" rest) =>
          obind (format_from fuel' rest value) (fun out => Return (String "}" out))
      | String "}" _ =>
          Raise (Exc ValueError "Single '}' encountered in format string")
      | String "{" rest =>
          match split_at "}" rest with
          | (field, Some rest') =>
              obind (format_field field value) (fun txt =>
              obind (format_from fuel' rest' value) (fun out => Return (txt ++ out)))
          | (_, None) =>
              Raise (Exc ValueError
                       match rest with
                       | EmptyString => "Single '{' encountered in format string"
                       | _ => "expected '}' before end of string"
                       end)
          end
      | String c rest =>
          obind (format_from fuel' rest value) (fun out => Return (String c out))
      end
  end.

Definition str_format (template : string) (value : Z) : outcome string :=
  format_from (S (String.length template)) template value.

End Py.

Import Py.

Declare Scope outcome_scope.
Delimit Scope outcome_scope with outcome.
Notation "'let?' x ':=' m 'in' k" := (obind m (fun x => k))
  (at level 10, x name, m at level 100, k at level 200) : outcome_scope.
Notation "'let?' ' p ':=' m 'in' k" := (obind m (fun p => k))
  (at level 10, p pattern, m at level 100, k at level 200) : outcome_scope.
Open Scope outcome_scope.

(** ** The result record *)

(** Modelled from the spec: the class [krotov.result.Result], whose source is
    not part of [convergence.py].  A [Result] has the ordered iteration
    numbers [iters], the ordered values [info_vals] returned by the info
    hook, further named attributes that an extraction may reach, and the
    method [dump(path)] that persists the record and raises on failure.
    [dump] gives the exception that [result.dump(path)] raises, if any. *)
Record Result := {
  iters : list Z;
  info_vals : list pyval;
  other_attrs : list (string * pyval);
  dump : string -> option exc;
}.

(** ** The glom fragment *)

Module Glom.

(** A step of a path: the text ['name'] (attribute access on the target),
    or [glom.T[i]] (indexing the target).  The text is one attribute name:
    a text with dots, which glom reads as a path of several names, and a
    text of digits, with which glom indexes a list, are outside the model. *)
Inductive step :=
| Attr (name : string)
| TIndex (i : Z).

(** A spec: a single step, a tuple of steps applied one after the other, or
    a callable applied to the target.  A callable carries the text [str]
    gives for it, and its outcome is the outcome of the extraction as glom
    hands it on: a glom that wraps what a callable raises is modelled by a
    callable that raises the wrapped exception. *)
Inductive spec :=
| SStep (s : step)
| STuple (steps : list step)
| SCallable (repr : string) (f : Result -> outcome pyval).

(** The keyword arguments passed on to [glom.glom]: [default], the value
    returned instead of raising a [GlomError]. *)
Record kwargs := { default : option pyval }.

Definition no_kwargs : kwargs := {| default := None |}.

Inductive target :=
| TResult (r : Result)
| TValue (v : pyval).

Fixpoint assoc (name : string) (l : list (string * pyval)) : option pyval :=
  match l with
  | [] => None
  | (k, v) :: rest => if String.eqb k name then Some v else assoc name rest
  end.

Definition getattr (r : Result) (name : string) : option pyval :=
  if String.eqb name "iters" then Some (PList (map PInt (iters r)))
  else if String.eqb name "info_vals" then Some (PList (info_vals r))
  else assoc name (other_attrs r).

Definition step_repr (s : step) : string :=
  match s with
  | Attr name => quote name
  | TIndex i => "T[" ++ str_of_Z i ++ "]"
  end.

(** [str(spec)] *)
Definition spec_str (sp : spec) : string :=
  match sp with
  | SStep (Attr name) => name
  | SStep s => step_repr s
  | STuple [s] => "(" ++ step_repr s ++ ",)"
  | STuple steps => "(" ++ String.concat ", " (map step_repr steps) ++ ")"
  | SCallable repr _ => repr
  end.

(** The failure of a step is a [PathAccessError]; its text follows glom's
    layout [could not access ..., part ... of ..., got error: ...]. *)
Definition access_error (part path err : string) : exc :=
  Exc PathAccessError
      ("could not access " ++ part ++ ", part 0 of " ++ path ++ ", got error: " ++ err).

Definition char_at (s : string) (i : Z) : option pyval :=
  match py_index (list_ascii_of_string s) i with
  | Some c => Some (PStr (String c EmptyString))
  | None => None
  end.

Definition eval_step (t : target) (s : step) : outcome target :=
  match s with
  | Attr name =>
      let fail owner :=
        Raise (access_error (quote name) ("Path(" ++ quote name ++ ")")
                 ("AttributeError(" ++ quote owner ++ " object has no attribute "
                  ++ quote name ++ ")")) in
      match t with
      | TResult r =>
          match getattr r name with
          | Some v => Return (TValue v)
          | None => fail "Result"
          end
      | TValue v => fail (type_name v)
      end
  | TIndex i =>
      let fail err := Raise (access_error (str_of_Z i) (step_repr s) err) in
      match t with
      | TValue (PList l) =>
          match py_index l i with
          | Some v => Return (TValue v)
          | None => fail "IndexError('list index out of range')"
          end
      | TValue (PStr txt) =>
          match char_at txt i with
          | Some v => Return (TValue v)
          | None => fail "IndexError('string index out of range')"
          end
      | TValue v => fail ("TypeError(" ++ quote (type_name v) ++ " object is not subscriptable)")
      | TResult _ => fail "TypeError('Result' object is not subscriptable)"
      end
  end.

Fixpoint eval_steps (t : target) (steps : list step) : outcome target :=
  match steps with
  | [] => Return t
  | s :: rest => let? t' := eval_step t s in eval_steps t' rest
  end.

Definition value_of (t : target) : pyval :=
  match t with
  | TValue v => v
  | TResult _ => PObj "Result" "<krotov.result.Result object>"
  end.

Definition eval_spec (r : Result) (sp : spec) : outcome pyval :=
  match sp with
  | SStep s => let? t := eval_step (TResult r) s in Return (value_of t)
  | STuple steps => let? t := eval_steps (TResult r) steps in Return (value_of t)
  | SCallable _ f => f r
  end.

(** [glom.glom(target, spec, **kwargs)]: with a [default], a [GlomError] is
    replaced by it; every other exception passes through. *)
Definition glom (r : Result) (sp : spec) (kw : kwargs) : outcome pyval :=
  match eval_spec r sp with
  | Return v => Return v
  | Raise e =>
      match default kw with
      | Some d => if except [GlomError] e then Return d else Raise e
      | None => Raise e
      end
  end.

(** [glom.T[i]] of the attribute [info_vals]. *)
Definition info_val (i : Z) : spec := STuple [Attr "info_vals"; TIndex i].

End Glom.

Import Glom.

(** ** Effects

    A check may write the record to storage.  The [world] is the list of
    paths that [Result.dump] was invoked on, oldest first; a computation
    takes the world and gives the new one with its outcome. *)

Definition world := list string.

Definition M (A : Type) : Type := world -> world * outcome A.

Definition ret {A} (a : A) : M A := fun w => (w, Return a).

Definition lift {A} (o : outcome A) : M A := fun w => (w, o).

Definition bind {A B} (m : M A) (k : A -> M B) : M B :=
  fun w =>
    match m w with
    | (w', Return a) => k a w'
    | (w', Raise e) => (w', Raise e)
    end.

Declare Scope check_scope.
Delimit Scope check_scope with check.
Notation "x <- m ;; k" := (bind m (fun x => k))
  (at level 100, m at next level, right associativity) : check_scope.
Open Scope check_scope.

(** [try: body] with the clause [except clause as e: handler e]. *)
Definition try_except {A} (body : M A) (clause : list exc_class)
    (handler : exc -> M A) : M A :=
  fun w =>
    match body w with
    | (w', Return a) => (w', Return a)
    | (w', Raise e) => if except clause e then handler e w' else (w', Raise e)
    end.

(** [result.dump(outfile)] *)
Definition call_dump (result : Result) (outfile : string) : M unit :=
  fun w =>
    ((w ++ [outfile])%list,
     match dump result outfile with
     | None => Return tt
     | Some e => Raise e
     end).

(** A [check_convergence] routine: it receives the [Result] and returns
    [None] or a message. *)
Definition predicate := Result -> M pyval.

(** ** convergence.py *)

Fixpoint Or (funcs : list predicate) : predicate :=
  fun result =>
    match funcs with
    | [] => ret PNone
    | func :: rest =>
        msg <- func result ;;
        if py_bool msg then ret msg else Or rest result
    end.

(** [if name is None: name = fallback] *)
Definition name_or (name : option string) (fallback : string) : string :=
  match name with
  | Some n => n
  | None => fallback
  end.

Definition value_below (limit : pyval) (spec : spec) (name : option string)
    (kw : kwargs) : predicate :=
  let name := name_or name (spec_str spec) in
  fun result => lift (
    let? v := glom result spec kw in
    let? l := py_float limit in
    let? below := py_lt_float v l in
    if below then Return (PStr (name ++ " < " ++ py_str limit))
    else Return PNone).

Definition value_above (limit : pyval) (spec : spec) (name : option string)
    (kw : kwargs) : predicate :=
  let name := name_or name (spec_str spec) in
  fun result => lift (
    let? v := glom result spec kw in
    let? l := py_float limit in
    let? above := py_gt_float v l in
    if above then Return (PStr (name ++ " > " ++ py_str limit))
    else Return PNone).

(** The exceptions of the two [except] clauses of [delta_below]. *)
Definition extraction_errors : list exc_class :=
  [AttributeError; KeyError; IndexError; GlomError].

(** [try: v = glom.glom(result, spec, **kwargs)] followed by the [except]
    clause [v = None; delayed_exc = exc]. *)
Definition try_glom (result : Result) (spec : spec) (kw : kwargs)
    (delayed_exc : option exc) : outcome (pyval * option exc) :=
  match glom result spec kw with
  | Return v => Return (v, delayed_exc)
  | Raise e =>
      if except extraction_errors e then Return (PNone, Some e) else Raise e
  end.

(** The name of the difference in the message of [delta_below]. *)
Definition delta_name (name : option string) (spec1 spec0 : spec) : string :=
  name_or name ("Δ(" ++ spec_str spec1 ++ "," ++ spec_str spec0 ++ ")").

Definition delta_below (limit : pyval) (spec1 spec0 : spec) (absolute_value : bool)
    (name : option string) (kw : kwargs) : predicate :=
  let name := delta_name name spec1 spec0 in
  fun result => lift (
    let delayed_exc := None in
    let? '(v1, delayed_exc) := try_glom result spec1 kw delayed_exc in
    let? '(v0, delayed_exc) := try_glom result spec0 kw delayed_exc in
    if xorb (is_None v1) (is_None v0) then Return PNone
    else
      match delayed_exc with
      | Some e => Raise e
      | None =>
          let? delta := py_sub v1 v0 in
          let? delta := if absolute_value then py_abs delta else Return delta in
          let? l := py_float limit in
          let? below := py_lt_float delta l in
          if below then Return (PStr (name ++ " < " ++ py_str limit))
          else Return PNone
      end).

Definition _monotonic_convergence : predicate :=
  delta_below (PInt 0) (info_val (-2)) (info_val (-1)) false
    (Some "Loss of monotonic convergence; error decrease") no_kwargs.

Definition _monotonic_fidelity : predicate :=
  delta_below (PInt 0) (info_val (-1)) (info_val (-2)) false
    (Some "Loss of monotonic convergence; fidelity increase") no_kwargs.

Definition check_monotonic_error : predicate :=
  fun result => _monotonic_convergence result.

Definition check_monotonic_fidelity : predicate :=
  fun result => _monotonic_fidelity result.

(** The closure [_dump_result] that [dump_result] returns, over the
    integer [every].  The [return None] that follows the [try] statement is
    the value of its body here. *)
Definition _dump_result (filename : string) (every : Z) : predicate :=
  fun result =>
    iteration <- lift (match py_index (iters result) (-1) with
                       | Some i => Return i
                       | None => Raise (Exc IndexError "list index out of range")
                       end) ;;
    if iteration mod every =? 0 then
      outfile <- lift (str_format filename iteration) ;;
      try_except (_ <- call_dump result outfile ;; ret PNone) [OSError]
        (fun exc_info =>
           ret (PStr ("Could not store " ++ outfile ++ ": " ++ exc_str exc_info)))
    else ret PNone.

Definition dump_result (filename : string) (every : pyval) : outcome predicate :=
  let? every := py_int every in
  if every <=? 0 then Raise (Exc ValueError "every must be > 0")
  else Return (_dump_result filename every).

(** ** Data of the examples and predicates of the statements *)

(** The float that a decimal literal of the source text denotes. *)
Definition float_lit (s : string) : spec_float :=
  match float_of_str s with
  | Return f => f
  | Raise _ => S754_nan
  end.

(** A record with the given info values, one iteration number for each of
    them after the initial [0], and a storage that accepts every dump. *)
Definition record_of (vals : list pyval) : Result :=
  {| iters := map Z.of_nat (seq 0 (S (List.length vals)));
     info_vals := vals;
     other_attrs := [];
     dump := fun _ => None |}.

(** A record at iteration [i] whose [dump] answers with [storage]. *)
Definition record_at (i : Z) (storage : string -> option exc) : Result :=
  {| iters := [0; i];
     info_vals := [];
     other_attrs := [];
     dump := storage |}.

(** [lambda r: r.info_vals[-1]], the callable of the docstrings. *)
Definition last_info_val : spec :=
  SCallable "<function <lambda>>"
    (fun r =>
       match py_index (info_vals r) (-1) with
       | Some v => Return v
       | None => Raise (Exc IndexError "list index out of range")
       end).

(** A check that records its call under [tag] in the world and returns
    [answer]. *)
Definition stub (tag : string) (answer : pyval) : predicate :=
  fun _ w => ((w ++ [tag])%list, Return answer).

(** [passes funcs r w w']: called one after the other on [r] from the world
    [w], every check of [funcs] returns a result that is false in a Boolean
    context, and the last one leaves the world [w']. *)
Inductive passes (r : Result) : list predicate -> world -> world -> Prop :=
| passes_nil : forall w, passes r [] w w
| passes_cons : forall func rest w w1 w2 msg,
    func r w = (w1, Return msg) ->
    py_bool msg = false ->
    passes r rest w1 w2 ->
    passes r (func :: rest) w w2.

(** The values of [every] that are not positive: integers and floats at or
    below zero. *)
Definition non_positive (every : pyval) : Prop :=
  match every with
  | PInt z => z <= 0
  | PBool b => b = false
  | PFloat f => SFleb f fzero = true
  | _ => False
  end.

(** A template text without braces. *)
Definition plain (s : string) : Prop :=
  forall c, In c (list_ascii_of_string s) -> c <> "{"%char /\ c <> "}"%char.

(** The float [1.0]. *)
Definition fone : spec_float := S754_finite false 4503599627370496 (-52).

(** The number that a text of decimal digits denotes. *)
Definition digits_value (s : string) : option Z :=
  option_map Z.of_uint (NilEmpty.uint_of_string s).

(** ** Properties *)

(** *** The runtime fragment *)

Lemma flt_irrefl (x : spec_float) : flt x x = false.
Proof.
  unfold flt, SFltb, SFcompare.
  destruct x as [s | s | | s m e]; try destruct s; try reflexivity;
    rewrite Z.compare_refl, Pos.compare_cont_refl; reflexivity.
Qed.

Lemma py_sub_not_None (a b d : pyval) :
  py_sub a b = Return d -> is_None a = false /\ is_None b = false.
Proof.
  destruct a, b; simpl; intros H; try discriminate H; split; reflexivity.
Qed.

(** *** binary64: the sign of a difference *)

Lemma digits2_pos_bounds (m : positive) :
  2 ^ (Zpos (digits2_pos m) - 1) <= Zpos m < 2 ^ Zpos (digits2_pos m).
Proof.
  induction m as [m IH | m IH |]; simpl digits2_pos.
  - rewrite Pos2Z.inj_succ.
    replace (Z.succ (Zpos (digits2_pos m)) - 1) with (Z.succ (Zpos (digits2_pos m) - 1)) by lia.
    rewrite !Z.pow_succ_r by lia. lia.
  - rewrite Pos2Z.inj_succ.
    replace (Z.succ (Zpos (digits2_pos m)) - 1) with (Z.succ (Zpos (digits2_pos m) - 1)) by lia.
    rewrite !Z.pow_succ_r by lia. lia.
  - simpl. lia.
Qed.

Lemma shr_1_m (mrs : shr_record) :
  0 <= shr_m mrs -> shr_m (shr_1 mrs) = shr_m mrs / 2.
Proof.
  destruct mrs as [m r s]. simpl. intros Hm.
  destruct m as [| p | p]; [reflexivity | | lia].
  destruct p as [p | p |]; simpl.
  - rewrite Pos2Z.inj_xI. apply Z.div_unique with 1; lia.
  - rewrite Pos2Z.inj_xO. apply Z.div_unique with 0; lia.
  - reflexivity.
Qed.

Lemma iter_shr_1_m (p : positive) :
  forall mrs, 0 <= shr_m mrs ->
  shr_m (iter_pos shr_1 p mrs) = shr_m mrs / 2 ^ Zpos p.
Proof.
  induction p as [p IH | p IH |]; intros mrs Hm; simpl iter_pos.
  - assert (H1 : 0 <= shr_m (shr_1 mrs)) by (rewrite shr_1_m by lia; apply Z.div_pos; lia).
    assert (H2 : 0 <= shr_m (iter_pos shr_1 p (shr_1 mrs)))
      by (rewrite IH by lia; apply Z.div_pos; [lia | apply Z.pow_pos_nonneg; lia]).
    rewrite IH by exact H2. rewrite IH by exact H1. rewrite shr_1_m by exact Hm.
    assert (E : 2 ^ Zpos p~1 = 2 * (2 ^ Zpos p * 2 ^ Zpos p)).
    { rewrite (Pos2Z.inj_xI p).
      replace (2 * Zpos p + 1) with (1 + (Zpos p + Zpos p)) by lia.
      rewrite !Z.pow_add_r by lia. reflexivity. }
    rewrite E, !Z.div_div by (try apply Z.pow_pos_nonneg; lia).
    reflexivity.
  - assert (H2 : 0 <= shr_m (iter_pos shr_1 p mrs))
      by (rewrite IH by lia; apply Z.div_pos; [lia | apply Z.pow_pos_nonneg; lia]).
    rewrite IH by exact H2. rewrite IH by exact Hm.
    assert (E : 2 ^ Zpos p~0 = 2 ^ Zpos p * 2 ^ Zpos p).
    { rewrite (Pos2Z.inj_xO p).
      replace (2 * Zpos p) with (Zpos p + Zpos p) by lia.
      rewrite !Z.pow_add_r by lia. reflexivity. }
    rewrite E, !Z.div_div by (try apply Z.pow_pos_nonneg; lia).
    reflexivity.
  - rewrite shr_1_m by exact Hm. reflexivity.
Qed.

Lemma shr_record_of_loc_m (m : Z) (l : location) : shr_m (shr_record_of_loc m l) = m.
Proof. destruct l as [| c]; [| destruct c]; reflexivity. Qed.

Lemma shr_fexp_pos (m e : Z) (l : location) :
  0 < m -> emin <= e ->
  0 < shr_m (fst (shr_fexp prec emax m e l)) /\ emin <= snd (shr_fexp prec emax m e l).
Proof.
  intros Hm He. unfold shr_fexp, shr.
  destruct m as [| p | p]; try lia. simpl Zdigits2.
  pose proof (digits2_pos_bounds p) as Hd.
  remember (Zpos (digits2_pos p)) as d eqn:Ed.
  destruct (fexp prec emax (d + e) - e) as [| q | q] eqn:En; simpl fst; simpl snd.
  - rewrite shr_record_of_loc_m. lia.
  - rewrite iter_shr_1_m by (rewrite shr_record_of_loc_m; lia).
    rewrite shr_record_of_loc_m.
    assert (Hq : Zpos q = d - prec).
    { unfold fexp in En. unfold SpecFloat.emin in *. unfold prec, emax in *. lia. }
    split; [| lia].
    apply Z.lt_le_trans with 1; [lia |].
    apply Z.div_le_lower_bound; [apply Z.pow_pos_nonneg; lia |].
    rewrite Z.mul_1_r. apply Z.le_trans with (2 ^ (d - 1)); [| lia].
    apply Z.pow_le_mono_r; [lia |]. unfold prec in Hq. lia.
  - rewrite shr_record_of_loc_m. lia.
Qed.

Lemma round_nearest_even_pos (m : Z) (l : location) : 0 < m -> 0 < round_nearest_even m l.
Proof.
  intros Hm. destruct l as [| c]; simpl; [lia |].
  destruct c; [destruct (Z.even m) | |]; lia.
Qed.

Lemma binary_round_aux_neg (m e : Z) (l : location) :
  0 < m -> emin <= e ->
  flt (binary_round_aux prec emax true m e l) fzero = true.
Proof.
  intros Hm He. unfold binary_round_aux.
  pose proof (shr_fexp_pos m e l Hm He) as [H1 H2].
  destruct (shr_fexp prec emax m e l) as [mrs' e']. simpl in H1, H2.
  pose proof (shr_fexp_pos _ e' loc_Exact
                (round_nearest_even_pos _ (loc_of_shr_record mrs') H1) H2) as [H3 _].
  destruct (shr_fexp prec emax _ e' loc_Exact) as [mrs'' e'']. simpl in H3.
  destruct (shr_m mrs'') as [| q | q]; try lia.
  destruct (e'' <=? emax - prec); reflexivity.
Qed.

Lemma binary_round_aux_pos (m e : Z) (l : location) :
  flt (binary_round_aux prec emax false m e l) fzero = false.
Proof.
  unfold binary_round_aux.
  destruct (shr_fexp prec emax m e l) as [mrs' e'].
  destruct (shr_fexp prec emax _ e' loc_Exact) as [mrs'' e''].
  destruct (shr_m mrs'') as [| q | q]; try reflexivity.
  destruct (e'' <=? emax - prec); reflexivity.
Qed.

Lemma binary_normalize_lt_zero (D e : Z) :
  emin <= e ->
  flt (binary_normalize prec emax D e false) fzero = (D <? 0).
Proof.
  intros He. destruct D as [| p | p]; simpl binary_normalize.
  - reflexivity.
  - unfold binary_round. destruct (shl_align _ _ _) as [mz ez].
    apply binary_round_aux_pos.
  - unfold binary_round.
    assert (Hz : emin <= snd (shl_align p e (fexp prec emax (Zpos (digits2_pos p) + e)))).
    { unfold shl_align.
      destruct (fexp prec emax (Zpos (digits2_pos p) + e) - e) eqn:E; simpl; try lia.
      unfold fexp. lia. }
    destruct (shl_align _ _ _) as [mz ez]. simpl in Hz.
    apply binary_round_aux_neg; [lia | exact Hz].
Qed.

Lemma shl_align_fst (m : positive) (e e' : Z) :
  e' <= e -> Zpos (fst (shl_align m e e')) = Zpos m * 2 ^ (e - e').
Proof.
  intros H. unfold shl_align.
  destruct (e' - e) as [| d | d] eqn:E; simpl fst.
  - replace (e - e') with 0 by lia. lia.
  - lia.
  - replace (e - e') with (Zpos d) by lia.
    change (Pos.iter xO m d) with (shift_pos d m).
    rewrite shift_pos_correct. rewrite Zpower_pos_nat, Zpower_nat_Z, positive_nat_Z. lia.
Qed.

Lemma canonical_bounds (m : positive) (e : Z) :
  bounded prec emax m e = true ->
  emin <= e /\ Zpos m < 2 ^ prec
  /\ (emin < e -> 2 ^ (prec - 1) <= Zpos m).
Proof.
  unfold bounded, canonical_mantissa. intros H.
  apply andb_prop in H. destruct H as [H _]. apply Z.eqb_eq in H.
  pose proof (digits2_pos_bounds m) as Hd.
  remember (Zpos (digits2_pos m)) as d eqn:Ed.
  assert (0 < d) by (subst d; lia).
  unfold fexp in H. unfold SpecFloat.emin, prec, emax in *.
  split; [lia |]. split.
  - apply Z.lt_le_trans with (2 ^ d); [lia |]. apply Z.pow_le_mono_r; lia.
  - intros He. apply Z.le_trans with (2 ^ (d - 1)); [| lia].
    apply Z.pow_le_mono_r; lia.
Qed.

(** Mantissas aligned on the smaller exponent compare as the floats do. *)
Lemma aligned_compare (mx my : positive) (ex ey : Z) :
  bounded prec emax mx ex = true -> bounded prec emax my ey = true ->
  (Zpos (fst (shl_align mx ex (Z.min ex ey))) ?= Zpos (fst (shl_align my ey (Z.min ex ey))))
  = match ex ?= ey with
    | Lt => Lt
    | Gt => Gt
    | Eq => Pos.compare_cont Eq mx my
    end.
Proof.
  intros Bx By.
  destruct (canonical_bounds _ _ Bx) as (Hex & Hx & Hxn).
  destruct (canonical_bounds _ _ By) as (Hey & Hy & Hyn).
  rewrite !shl_align_fst by lia.
  destruct (Z.compare_spec ex ey) as [E | L | G].
  - subst ey. rewrite Z.min_id, Z.sub_diag. simpl. rewrite !Pos.mul_1_r. reflexivity.
  - rewrite Z.min_l by lia. rewrite Z.sub_diag, Z.mul_1_r.
    apply Z.compare_lt_iff.
    assert (2 ^ 1 <= 2 ^ (ey - ex)) by (apply Z.pow_le_mono_r; lia).
    specialize (Hyn ltac:(lia)). unfold prec in *.
    change (2 ^ 53) with (2 ^ 52 * 2 ^ 1) in Hx. change (53 - 1) with 52 in Hyn. nia.
  - rewrite Z.min_r by lia. rewrite Z.sub_diag, Z.mul_1_r.
    apply Z.compare_gt_iff.
    assert (2 ^ 1 <= 2 ^ (ex - ey)) by (apply Z.pow_le_mono_r; lia).
    specialize (Hxn ltac:(lia)). unfold prec in *.
    change (2 ^ 53) with (2 ^ 52 * 2 ^ 1) in Hy. change (53 - 1) with 52 in Hxn. nia.
Qed.

(** In binary64 the difference of two floats is below zero exactly when the
    first is below the second: a difference that is not zero does not round
    to zero. *)
Lemma fsub_lt_zero (x y : spec_float) :
  is_binary64 x -> is_binary64 y -> flt (fsub x y) fzero = flt x y.
Proof.
  unfold is_binary64. intros Vx Vy.
  destruct x as [sx | sx | | sx mx ex], y as [sy | sy | | sy my ey];
    try reflexivity;
    try (destruct sx; reflexivity);
    try (destruct sy; reflexivity);
    try (destruct sx, sy; reflexivity).
  simpl in Vx, Vy.
  destruct (canonical_bounds _ _ Vx) as (Hex & _).
  destruct (canonical_bounds _ _ Vy) as (Hey & _).
  unfold fsub, SFsub. rewrite binary_normalize_lt_zero by lia.
  pose proof (aligned_compare mx my ex ey Vx Vy) as C.
  unfold flt, SFltb, SFcompare.
  remember (Zpos (fst (shl_align mx ex (Z.min ex ey)))) as a eqn:Ea.
  remember (Zpos (fst (shl_align my ey (Z.min ex ey)))) as b eqn:Eb.
  assert (0 < a) by (subst a; lia). assert (0 < b) by (subst b; lia).
  change (PosDef.Pos.compare_cont Eq mx my) with (Pos.compare_cont Eq mx my).
  pose proof (Z.compare_spec a b) as S. rewrite C in S. clear C.
  destruct sx, sy; simpl cond_Zopp.
  - destruct (ex ?= ey); [destruct (Pos.compare_cont Eq mx my) | |]; cbn [CompOpp];
      inversion S; first [apply Z.ltb_lt; lia | apply Z.ltb_ge; lia].
  - apply Z.ltb_lt. lia.
  - apply Z.ltb_ge. lia.
  - destruct (ex ?= ey); [destruct (Pos.compare_cont Eq mx my) | |];
      inversion S; first [apply Z.ltb_lt; lia | apply Z.ltb_ge; lia].
Qed.

(** The decimal reader agrees with the correctly rounded literals of
    binary64 on the numbers of the docstrings. *)
Example float_lit_binary64 :
  map float_lit ["1e-4"; "9e-5"; "9e-1"; "1e-1"; "2e-1"; "0.999"]
  = map Prim2SF [0x1.a36e2eb1c432dp-14; 0x1.797cc39ffd60fp-14; 0x1.ccccccccccccdp-1;
                 0x1.999999999999ap-4; 0x1.999999999999ap-3; 0x1.ff7ced916872bp-1]%float.
Proof. vm_compute. reflexivity. Qed.

Example repr_float_examples :
  map (fun s => repr_float (float_lit s)) ["1e-4"; "9e-5"; "0.999"; "1e16"; "100"]
  = ["0.0001"; "9e-05"; "0.999"; "1e+16"; "100.0"].
Proof. vm_compute. reflexivity. Qed.

(** *** [Or] *)

Lemma Or_passes r funcs w w' :
  passes r funcs w w' -> Or funcs r w = (w', Return PNone).
Proof.
  induction 1 as [w | func rest w w1 w2 msg Hf Hb _ IH].
  - reflexivity.
  - simpl. unfold bind. rewrite Hf, Hb. exact IH.
Qed.

Lemma Or_app_passes r pre rest w w1 :
  passes r pre w w1 -> Or (pre ++ rest)%list r w = Or rest r w1.
Proof.
  induction 1 as [w | func tl w w1 w2 msg Hf Hb _ IH].
  - reflexivity.
  - simpl. unfold bind. rewrite Hf, Hb. exact IH.
Qed.

(** C6. [Or] calls the checks in the given order, each from the world the
    previous one left.  When the checks of [pre] all return a result that is
    false in a Boolean context and the next check [func] returns a result
    [msg] that is true, [Or] returns [msg] in the world [func] left, whatever
    checks [post] follow: they are not evaluated.  When every check returns a
    false result, in particular for the empty list, [Or] returns [None]. *)
Theorem Or_first_truthy (pre post : list predicate) (r : Result) (w w1 : world) :
  passes r pre w w1 ->
  Or pre r w = (w1, Return PNone)
  /\ (forall func w2 msg,
        func r w1 = (w2, Return msg) -> py_bool msg = true ->
        Or (pre ++ func :: post)%list r w = (w2, Return msg))
  /\ Or [] r w = (w, Return PNone).
Proof.
  intros Hpre. split; [| split].
  - apply Or_passes, Hpre.
  - intros func w2 msg Hf Hb.
    rewrite (Or_app_passes _ _ _ _ _ Hpre). simpl. unfold bind.
    rewrite Hf, Hb. reflexivity.
  - reflexivity.
Qed.

(** Two checks pass, the third stops with a message, and the fourth is
    never called: its tag is not in the world. *)
Lemma Or_first_truthy_witness :
  Or ([stub "a" PNone; stub "b" (PStr "")]
        ++ stub "c" (PStr "stop") :: [stub "d" (PStr "late")])%list
     (record_of []) []
  = (["a"; "b"; "c"], Return (PStr "stop")).
Proof.
  refine (proj1 (proj2 (Or_first_truthy [stub "a" PNone; stub "b" (PStr "")]
                          [stub "d" (PStr "late")] (record_of []) [] ["a"; "b"] _))
            (stub "c" (PStr "stop")) ["a"; "b"; "c"] (PStr "stop") _ _).
  - eapply passes_cons; [reflexivity | reflexivity |].
    eapply passes_cons; [reflexivity | reflexivity |].
    apply passes_nil.
  - reflexivity.
  - reflexivity.
Defined.

(** *** [Or]: exceptions, nesting, results *)

(** X1. [Or] catches nothing: when the checks of [pre] all pass and the next
    check raises, [Or] raises that exception in the world the check left,
    and the checks after it are not evaluated. *)
Theorem Or_raise (pre post : list predicate) (func : predicate) (r : Result)
    (w w1 w2 : world) (e : exc) :
  passes r pre w w1 ->
  func r w1 = (w2, Raise e) ->
  Or (pre ++ func :: post)%list r w = (w2, Raise e).
Proof.
  intros Hpre Hf. rewrite (Or_app_passes _ _ _ _ _ Hpre). simpl. unfold bind.
  rewrite Hf. reflexivity.
Qed.

(** A check passes, the extraction of the second one fails, the third one
    is not called. *)
Lemma Or_raise_witness :
  Or ([stub "a" PNone]
        ++ value_below (PStr "1e-4") (info_val (-1)) None no_kwargs
        :: [stub "c" (PStr "late")])%list
     (record_of []) []
  = (["a"], Raise (access_error "-1" "T[-1]" "IndexError('list index out of range')")).
Proof.
  refine (Or_raise [stub "a" PNone] [stub "c" (PStr "late")]
            (value_below (PStr "1e-4") (info_val (-1)) None no_kwargs)
            (record_of []) [] ["a"] ["a"] _ _ eq_refl).
  eapply passes_cons; [reflexivity | reflexivity | apply passes_nil].
Defined.

Lemma Or_nested_head (fs gs : list predicate) (r : Result) :
  forall w, Or (Or fs :: gs) r w = Or (fs ++ gs)%list r w.
Proof.
  induction fs as [| f fs IH]; intros w.
  - reflexivity.
  - change (Or (Or (f :: fs) :: gs) r w)
      with (bind (Or (f :: fs) r)
              (fun msg => if py_bool msg then ret msg else Or gs r) w).
    simpl. unfold bind.
    destruct (f r w) as [w' [msg | e]]; [| reflexivity].
    destruct (py_bool msg) eqn:B.
    + unfold ret. rewrite B. reflexivity.
    + apply IH.
Qed.

(** X2. A combination may be nested: an [Or] among the checks of another
    [Or] behaves as its checks written out in its place, in result and in
    effect.  In particular [Or(Or(...))] is [Or(...)]. *)
Theorem Or_nested (fs gs hs : list predicate) (r : Result) (w : world) :
  Or (fs ++ Or gs :: hs)%list r w = Or (fs ++ gs ++ hs)%list r w
  /\ Or [Or gs] r w = Or gs r w.
Proof.
  split.
  - revert w. induction fs as [| f fs IH]; intros w.
    + exact (Or_nested_head gs hs r w).
    + simpl. unfold bind. destruct (f r w) as [w' [msg | e]]; [| reflexivity].
      destruct (py_bool msg); [reflexivity | apply IH].
  - rewrite (Or_nested_head gs [] r w), app_nil_r. reflexivity.
Qed.

(** X3. What [Or] returns is [None] or a value that is true in a Boolean
    context: a check that returns an empty message, or another false value,
    is taken to pass, and the combination returns [None] for it. *)
Theorem Or_result (funcs : list predicate) (r : Result) (w w' : world) (v : pyval) :
  Or funcs r w = (w', Return v) ->
  v = PNone \/ py_bool v = true.
Proof.
  revert w. induction funcs as [| f funcs IH]; intros w; simpl; unfold bind, ret.
  - intros H. left. congruence.
  - destruct (f r w) as [w1 [msg | e]]; [| discriminate].
    destruct (py_bool msg) eqn:B.
    + intros H. right. congruence.
    + apply IH.
Qed.

(** A single check that returns the empty message. *)
Lemma Or_result_witness : PNone = PNone \/ py_bool PNone = true.
Proof.
  exact (Or_result [stub "a" (PStr "")] (record_of []) [] ["a"] PNone eq_refl).
Defined.

(** *** [value_below] *)

(** C3. When the extraction yields [v] and [float(limit)] is [l], the check
    returns the message [name < limit] if [v < l] holds and [None] if it
    does not; [name] is the given one, or [str(spec)] when none is given.
    For a float [v] the order is binary64's strict order, so a value equal
    to the limit gives [None]; and a [limit] given as text appears in the
    message as it was written. *)
Theorem value_below_message
    (limit : pyval) (spec : spec) (name : option string) (kw : kwargs)
    (r : Result) (v : pyval) (l : spec_float) (w : world) :
  glom r spec kw = Return v ->
  py_float limit = Return l ->
  (forall below, py_lt_float v l = Return below ->
     value_below limit spec name kw r w
     = (w, Return (if below
                   then PStr (name_or name (spec_str spec) ++ " < " ++ py_str limit)
                   else PNone)))
  /\ (forall x, v = PFloat x ->
        value_below limit spec name kw r w
        = (w, Return (if flt x l
                      then PStr (name_or name (spec_str spec) ++ " < " ++ py_str limit)
                      else PNone)))
  /\ (v = PFloat l -> value_below limit spec name kw r w = (w, Return PNone))
  /\ (forall s, limit = PStr s -> py_lt_float v l = Return true ->
        value_below limit spec name kw r w
        = (w, Return (PStr (name_or name (spec_str spec) ++ " < " ++ s)))).
Proof.
  intros Hv Hl.
  assert (G : forall below, py_lt_float v l = Return below ->
     value_below limit spec name kw r w
     = (w, Return (if below
                   then PStr (name_or name (spec_str spec) ++ " < " ++ py_str limit)
                   else PNone))).
  { intros below Hb. unfold value_below, lift. rewrite Hv. simpl.
    rewrite Hl. simpl. rewrite Hb. simpl. destruct below; reflexivity. }
  split; [exact G | split; [| split]].
  - intros x ->. apply (G (flt x l)). reflexivity.
  - intros ->. rewrite (G (flt l l) eq_refl), flt_irrefl. reflexivity.
  - intros s -> Hb. rewrite (G true Hb). reflexivity.
Qed.

(** The docstring of [value_below]: the limit ['1e-4'] against the last
    info value [1e-4], then [9e-5]. *)
Lemma value_below_message_witness :
  value_below (PStr "1e-4") last_info_val (Some "J_T") no_kwargs
    (record_of [PFloat (float_lit "1e-4")]) []
  = ([], Return PNone)
  /\ value_below (PStr "1e-4") last_info_val (Some "J_T") no_kwargs
       (record_of [PFloat (float_lit "1e-4"); PFloat (float_lit "9e-5")]) []
     = ([], Return (PStr "J_T < 1e-4")).
Proof.
  split.
  - apply (proj1 (proj2 (proj2
      (value_below_message (PStr "1e-4") last_info_val (Some "J_T") no_kwargs
         (record_of [PFloat (float_lit "1e-4")])
         (PFloat (float_lit "1e-4")) (float_lit "1e-4") [] eq_refl eq_refl)))).
    reflexivity.
  - apply (proj2 (proj2 (proj2
      (value_below_message (PStr "1e-4") last_info_val (Some "J_T") no_kwargs
         (record_of [PFloat (float_lit "1e-4"); PFloat (float_lit "9e-5")])
         (PFloat (float_lit "9e-5")) (float_lit "1e-4") [] eq_refl eq_refl)))
      "1e-4" eq_refl).
    vm_compute. reflexivity.
Defined.

(** *** [value_above] and the two threshold checks together *)

Lemma SFcompare_antisym (x y : spec_float) :
  SFcompare y x = option_map CompOpp (SFcompare x y).
Proof.
  destruct x as [s | s | | s m e], y as [t | t | | t n f]; simpl;
    try destruct s; try destruct t; try reflexivity;
    rewrite (Z.compare_antisym e f); destruct (e ?= f); simpl; try reflexivity;
    change (PosDef.Pos.compare_cont Eq n m) with (Pos.compare n m);
    change (PosDef.Pos.compare_cont Eq m n) with (Pos.compare m n);
    rewrite (Pos.compare_antisym m n);
    destruct (Pos.compare m n); reflexivity.
Qed.

Lemma flt_asym (x y : spec_float) : flt x y = true -> flt y x = false.
Proof.
  unfold flt, SFltb. rewrite (SFcompare_antisym x y).
  destruct (SFcompare x y) as [[| |] |]; simpl; intros H;
    try discriminate H; reflexivity.
Qed.

Lemma py_lt_gt_float_exclusive (v : pyval) (l : spec_float) :
  py_lt_float v l = Return true -> py_gt_float v l = Return false.
Proof.
  destruct v as [| b | z | x | s | vs | t q]; simpl; try discriminate.
  - intros H. f_equal. destruct l as [s | s | | s m e]; simpl in *;
      injection H as H.
    + apply Z.ltb_ge. apply Z.ltb_lt in H. lia.
    + destruct s; [discriminate H | reflexivity].
    + discriminate H.
    + destruct (0 <=? e); apply Z.ltb_ge; apply Z.ltb_lt in H; lia.
  - intros H. f_equal. destruct l as [s | s | | s m e]; simpl in *;
      injection H as H.
    + apply Z.ltb_ge. apply Z.ltb_lt in H. lia.
    + destruct s; [discriminate H | reflexivity].
    + discriminate H.
    + destruct (0 <=? e); apply Z.ltb_ge; apply Z.ltb_lt in H; lia.
  - intros H. injection H as H. rewrite (flt_asym _ _ H). reflexivity.
Qed.

Section Threshold.

Variables (limit : pyval) (spec : spec) (kw : kwargs) (r : Result) (w : world).

(** X4. When the extraction yields [v] and [float(limit)] is [l],
    [value_above] returns the message [name > limit] if [v > l] holds and
    [None] if it does not; a float equal to the limit gives [None]. *)
Theorem value_above_message (name : option string) (v : pyval) (l : spec_float) :
  glom r spec kw = Return v ->
  py_float limit = Return l ->
  (forall above, py_gt_float v l = Return above ->
     value_above limit spec name kw r w
     = (w, Return (if above
                   then PStr (name_or name (spec_str spec) ++ " > " ++ py_str limit)
                   else PNone)))
  /\ (forall x, v = PFloat x ->
        value_above limit spec name kw r w
        = (w, Return (if flt l x
                      then PStr (name_or name (spec_str spec) ++ " > " ++ py_str limit)
                      else PNone)))
  /\ (v = PFloat l -> value_above limit spec name kw r w = (w, Return PNone)).
Proof.
  intros Hv Hl.
  assert (G : forall above, py_gt_float v l = Return above ->
     value_above limit spec name kw r w
     = (w, Return (if above
                   then PStr (name_or name (spec_str spec) ++ " > " ++ py_str limit)
                   else PNone))).
  { intros above Ha. unfold value_above, lift. rewrite Hv. cbn [obind].
    rewrite Hl. cbn [obind]. rewrite Ha. cbn [obind]. destruct above; reflexivity. }
  split; [exact G | split].
  - intros x ->. apply (G (flt l x)). reflexivity.
  - intros ->. rewrite (G (flt l l) eq_refl), flt_irrefl. reflexivity.
Qed.

(** X5. The threshold checks do not catch anything: what the extraction
    raises, [value_below] and [value_above] raise, and [float(limit)] is not
    evaluated, so this holds for every [limit]. *)
Theorem threshold_checks_propagate (name : option string) (e : exc) :
  glom r spec kw = Raise e ->
  value_below limit spec name kw r w = (w, Raise e)
  /\ value_above limit spec name kw r w = (w, Raise e).
Proof.
  intros H. unfold value_below, value_above, lift. rewrite H. split; reflexivity.
Qed.

(** X6. [limit] is converted by [float] at each call, and not when the
    check is constructed: once the extraction has given a value, what
    [float(limit)] raises is raised by [value_below] and by [value_above]. *)
Theorem threshold_checks_bad_limit (name : option string) (v : pyval) (e : exc) :
  glom r spec kw = Return v ->
  py_float limit = Raise e ->
  value_below limit spec name kw r w = (w, Raise e)
  /\ value_above limit spec name kw r w = (w, Raise e).
Proof.
  intros Hv Hl. unfold value_below, value_above, lift. rewrite Hv. cbn [obind].
  rewrite Hl. split; reflexivity.
Qed.

(** X7. With the same spec and the same limit, [value_below] and
    [value_above] never both return a message: whatever the record, one of
    two results is [None]. *)
Theorem value_below_above_exclusive (name1 name2 : option string) (v1 v2 : pyval) :
  value_below limit spec name1 kw r w = (w, Return v1) ->
  value_above limit spec name2 kw r w = (w, Return v2) ->
  v1 = PNone \/ v2 = PNone.
Proof.
  unfold value_below, value_above, lift.
  destruct (glom r spec kw) as [v | e]; cbn [obind]; [| discriminate].
  destruct (py_float limit) as [l | e]; cbn [obind]; [| discriminate].
  destruct (py_lt_float v l) as [[|] | e] eqn:Hlt; cbn [obind]; [| | discriminate].
  - rewrite (py_lt_gt_float_exclusive v l Hlt). cbn [obind].
    intros _ H. right. congruence.
  - intros H _. left. congruence.
Qed.

(** X8. A value that is not a number never stops the optimization: when the
    extracted float is NaN, or when [float(limit)] is NaN and the extracted
    value is a float, both threshold checks return [None]. *)
Theorem threshold_checks_nan (name : option string) (x l : spec_float) :
  glom r spec kw = Return (PFloat x) ->
  py_float limit = Return l ->
  x = S754_nan \/ l = S754_nan ->
  value_below limit spec name kw r w = (w, Return PNone)
  /\ value_above limit spec name kw r w = (w, Return PNone).
Proof.
  intros Hv Hl Hn. unfold value_below, value_above, lift.
  rewrite Hv, Hl. cbn [obind py_lt_float py_gt_float].
  assert (E : flt x l = false /\ flt l x = false).
  { destruct Hn as [-> | ->]; [destruct l | destruct x]; split; reflexivity. }
  destruct E as [-> ->]. split; reflexivity.
Qed.

End Threshold.

(** The docstring of [value_above]: the limit ['0.999'] against [0.9]. *)
Lemma value_above_message_witness :
  value_above (PStr "0.999") last_info_val (Some "Fidelity") no_kwargs
    (record_of [PFloat (float_lit "0.9")]) []
  = ([], Return PNone).
Proof.
  exact (proj1 (proj2
    (value_above_message (PStr "0.999") last_info_val no_kwargs
       (record_of [PFloat (float_lit "0.9")]) [] (Some "Fidelity")
       (PFloat (float_lit "0.9")) (float_lit "0.999") eq_refl eq_refl))
    (float_lit "0.9") eq_refl).
Defined.

(** No info value and the default spec: both checks raise the failure of
    the extraction, also with a limit that is no number. *)
Lemma threshold_checks_propagate_witness :
  value_below (PStr "no number") (info_val (-1)) None no_kwargs (record_of []) []
  = ([], Raise (access_error "-1" "T[-1]" "IndexError('list index out of range')"))
  /\ value_above (PStr "no number") (info_val (-1)) None no_kwargs (record_of []) []
     = ([], Raise (access_error "-1" "T[-1]" "IndexError('list index out of range')")).
Proof.
  exact (threshold_checks_propagate (PStr "no number") (info_val (-1)) no_kwargs
           (record_of []) [] None _ eq_refl).
Defined.

(** The limit ['tiny'] is accepted by the constructors and refused at the
    first call. *)
Lemma threshold_checks_bad_limit_witness :
  value_below (PStr "tiny") last_info_val None no_kwargs
    (record_of [PFloat (float_lit "9e-5")]) []
  = ([], Raise (Exc ValueError "could not convert string to float: 'tiny'"))
  /\ value_above (PStr "tiny") last_info_val None no_kwargs
       (record_of [PFloat (float_lit "9e-5")]) []
     = ([], Raise (Exc ValueError "could not convert string to float: 'tiny'")).
Proof.
  exact (threshold_checks_bad_limit (PStr "tiny") last_info_val no_kwargs
           (record_of [PFloat (float_lit "9e-5")]) [] None
           (PFloat (float_lit "9e-5")) _ eq_refl eq_refl).
Defined.

(** [9e-5] is below ['1e-4'], so it is not above it. *)
Lemma value_below_above_exclusive_witness :
  PStr "J_T < 1e-4" = PNone \/ PNone = PNone.
Proof.
  exact (value_below_above_exclusive (PStr "1e-4") last_info_val no_kwargs
           (record_of [PFloat (float_lit "9e-5")]) [] (Some "J_T") (Some "J_T")
           (PStr "J_T < 1e-4") PNone eq_refl eq_refl).
Defined.

(** A NaN as the last info value. *)
Lemma threshold_checks_nan_witness :
  value_below (PStr "1e-4") last_info_val (Some "J_T") no_kwargs
    (record_of [PFloat S754_nan]) []
  = ([], Return PNone)
  /\ value_above (PStr "1e-4") last_info_val (Some "J_T") no_kwargs
       (record_of [PFloat S754_nan]) []
     = ([], Return PNone).
Proof.
  exact (threshold_checks_nan (PStr "1e-4") last_info_val no_kwargs
           (record_of [PFloat S754_nan]) [] (Some "J_T") S754_nan (float_lit "1e-4")
           eq_refl eq_refl (or_introl eq_refl)).
Defined.

(** *** [delta_below] *)

Section DeltaBelow.

Variables (limit : pyval) (spec1 spec0 : spec) (absolute_value : bool).
Variables (name : option string) (kw : kwargs) (r : Result) (w : world).

Lemma try_glom_Return (sp : spec) (d : option exc) (v : pyval) :
  glom r sp kw = Return v -> try_glom r sp kw d = Return (v, d).
Proof. unfold try_glom. intros ->. reflexivity. Qed.

Lemma try_glom_caught (sp : spec) (d : option exc) (e : exc) :
  glom r sp kw = Raise e -> except extraction_errors e = true ->
  try_glom r sp kw d = Return (PNone, Some e).
Proof. unfold try_glom. intros -> ->. reflexivity. Qed.

Lemma try_glom_passed (sp : spec) (d : option exc) (e : exc) :
  glom r sp kw = Raise e -> except extraction_errors e = false ->
  try_glom r sp kw d = Raise e.
Proof. unfold try_glom. intros -> ->. reflexivity. Qed.

(** Runs the two [try] statements of [delta_below] on what is known of the
    two extractions. *)
Ltac extractions :=
  unfold delta_below, lift;
  repeat (first
    [ erewrite try_glom_Return by eassumption
    | erewrite try_glom_caught by eassumption
    | erewrite try_glom_passed by eassumption ];
    cbn [obind]).

(** C2. When both extractions fail, the check raises and never returns
    [None]: a failure outside the [except] clause passes through at once,
    and when both failures are caught the check re-raises [delayed_exc],
    which holds the failure of the [spec0] extraction. *)
Theorem delta_below_both_fail (e1 e0 : exc) :
  glom r spec1 kw = Raise e1 ->
  glom r spec0 kw = Raise e0 ->
  delta_below limit spec1 spec0 absolute_value name kw r w
  = (w, Raise (if except extraction_errors e1 then e0 else e1)).
Proof.
  intros H1 H0.
  destruct (except extraction_errors e1) eqn:C1;
    [destruct (except extraction_errors e0) eqn:C0 |];
    extractions; reflexivity.
Qed.

(** C1, as the code has it.  When one extraction fails with an exception of
    the [except] clause ([AttributeError], [KeyError], [IndexError],
    [GlomError]) and the other one yields a value that is not [None], the
    check returns [None]. *)
Theorem delta_below_one_fails (e : exc) (v : pyval) :
  except extraction_errors e = true ->
  is_None v = false ->
  (glom r spec1 kw = Raise e /\ glom r spec0 kw = Return v)
  \/ (glom r spec1 kw = Return v /\ glom r spec0 kw = Raise e) ->
  delta_below limit spec1 spec0 absolute_value name kw r w = (w, Return PNone).
Proof.
  intros C Hv [[H1 H0] | [H1 H0]]; extractions;
    cbn [is_None xorb]; rewrite Hv; reflexivity.
Qed.

(** C10. When one extraction raises nothing and yields [None] while the
    other yields a value that is not [None], the check returns [None]: the
    difference and the comparison are not evaluated, so the result is the
    same for every [limit], also one that is no number. *)
Theorem delta_below_None_value (v : pyval) :
  is_None v = false ->
  (glom r spec1 kw = Return PNone /\ glom r spec0 kw = Return v)
  \/ (glom r spec1 kw = Return v /\ glom r spec0 kw = Return PNone) ->
  delta_below limit spec1 spec0 absolute_value name kw r w = (w, Return PNone).
Proof.
  intros Hv [[H1 H0] | [H1 H0]]; extractions;
    cbn [is_None xorb]; rewrite Hv; reflexivity.
Qed.

(** C4. When both extractions succeed, with [v1] and [v0], the check takes
    [delta = v1 - v0], replaces it by [abs(delta)] when [absolute_value] is
    set, and returns the message [name < limit] if [delta < float(limit)]
    holds and [None] if it does not.  For floats the difference, its
    magnitude and the strict order are those of binary64. *)
Theorem delta_below_both_succeed (v1 v0 : pyval) (l : spec_float) :
  glom r spec1 kw = Return v1 ->
  glom r spec0 kw = Return v0 ->
  py_float limit = Return l ->
  (forall d delta below,
     py_sub v1 v0 = Return d ->
     (if absolute_value then py_abs d else Return d) = Return delta ->
     py_lt_float delta l = Return below ->
     delta_below limit spec1 spec0 absolute_value name kw r w
     = (w, Return (if below
                   then PStr (delta_name name spec1 spec0 ++ " < " ++ py_str limit)
                   else PNone)))
  /\ (forall a b, v1 = PFloat a -> v0 = PFloat b ->
        delta_below limit spec1 spec0 absolute_value name kw r w
        = (w, Return (if flt (if absolute_value then fabs (fsub a b) else fsub a b) l
                      then PStr (delta_name name spec1 spec0 ++ " < " ++ py_str limit)
                      else PNone))).
Proof.
  intros H1 H0 Hl.
  assert (G : forall d delta below,
     py_sub v1 v0 = Return d ->
     (if absolute_value then py_abs d else Return d) = Return delta ->
     py_lt_float delta l = Return below ->
     delta_below limit spec1 spec0 absolute_value name kw r w
     = (w, Return (if below
                   then PStr (delta_name name spec1 spec0 ++ " < " ++ py_str limit)
                   else PNone))).
  { intros d delta below Hd Ha Hb.
    destruct (py_sub_not_None _ _ _ Hd) as [N1 N0].
    extractions. rewrite N1, N0. cbn [xorb].
    rewrite Hd. cbn [obind]. rewrite Ha. cbn [obind].
    rewrite Hl. cbn [obind]. rewrite Hb. cbn [obind].
    destruct below; reflexivity. }
  split; [exact G |].
  intros a b -> ->.
  apply (G (PFloat (fsub a b))
           (PFloat (if absolute_value then fabs (fsub a b) else fsub a b))).
  - reflexivity.
  - destruct absolute_value; reflexivity.
  - reflexivity.
Qed.

End DeltaBelow.

(** With no info value, the default specs both fail and the failure of the
    extraction of the last-but-one value is raised. *)
Lemma delta_below_both_fail_witness :
  delta_below (PStr "1e-4") (info_val (-1)) (info_val (-2)) true None no_kwargs
    (record_of []) []
  = ([], Raise (access_error "-2" "T[-2]" "IndexError('list index out of range')")).
Proof.
  exact (delta_below_both_fail (PStr "1e-4") (info_val (-1)) (info_val (-2)) true None
           no_kwargs (record_of []) []
           (access_error "-1" "T[-1]" "IndexError('list index out of range')")
           (access_error "-2" "T[-2]" "IndexError('list index out of range')")
           eq_refl eq_refl).
Defined.

(** One info value: the last-but-one is missing, the last is there. *)
Lemma delta_below_one_fails_witness :
  delta_below (PStr "1e-4") (info_val (-1)) (info_val (-2)) true None no_kwargs
    (record_of [PFloat (float_lit "9e-1")]) []
  = ([], Return PNone).
Proof.
  apply (delta_below_one_fails (PStr "1e-4") (info_val (-1)) (info_val (-2)) true None
           no_kwargs (record_of [PFloat (float_lit "9e-1")]) []
           (access_error "-2" "T[-2]" "IndexError('list index out of range')")
           (PFloat (float_lit "9e-1"))).
  - reflexivity.
  - reflexivity.
  - right. split; reflexivity.
Defined.

(** C1 as stated fails: the record has exactly one info value, [None]; the
    extraction of the last value succeeds, the extraction of the
    last-but-one fails, and the check raises that failure instead of
    returning [None]. *)
Lemma delta_below_one_fails_None_value :
  glom (record_of [PNone]) (info_val (-1)) no_kwargs = Return PNone
  /\ glom (record_of [PNone]) (info_val (-2)) no_kwargs
     = Raise (access_error "-2" "T[-2]" "IndexError('list index out of range')")
  /\ delta_below (PStr "1e-4") (info_val (-1)) (info_val (-2)) true None no_kwargs
       (record_of [PNone]) []
     = ([], Raise (access_error "-2" "T[-2]" "IndexError('list index out of range')")).
Proof. repeat split; reflexivity. Qed.

(** With [default=None] passed on to glom, the missing last-but-one value is
    extracted as [None] and no exception is raised. *)
Lemma delta_below_None_value_witness :
  delta_below (PStr "not a number") (info_val (-1)) (info_val (-2)) true None
    {| default := Some PNone |} (record_of [PFloat (float_lit "9e-1")]) []
  = ([], Return PNone).
Proof.
  apply (delta_below_None_value (PStr "not a number") (info_val (-1)) (info_val (-2))
           true None {| default := Some PNone |} (record_of [PFloat (float_lit "9e-1")])
           [] (PFloat (float_lit "9e-1"))).
  - reflexivity.
  - right. split; reflexivity.
Defined.

(** The docstring of [delta_below]: after [1e-6] comes [1e-7]. *)
Lemma delta_below_both_succeed_witness :
  delta_below (PStr "1e-4") (info_val (-1)) (info_val (-2)) true (Some "ΔJ_T") no_kwargs
    (record_of [PFloat (float_lit "2e-4"); PFloat (float_lit "1e-6");
                PFloat (float_lit "1e-7")]) []
  = ([], Return (PStr "ΔJ_T < 1e-4")).
Proof.
  exact (proj2
    (delta_below_both_succeed (PStr "1e-4") (info_val (-1)) (info_val (-2)) true
       (Some "ΔJ_T") no_kwargs
       (record_of [PFloat (float_lit "2e-4"); PFloat (float_lit "1e-6");
                   PFloat (float_lit "1e-7")]) []
       (PFloat (float_lit "1e-7")) (PFloat (float_lit "1e-6")) (float_lit "1e-4")
       eq_refl eq_refl eq_refl)
    (float_lit "1e-7") (float_lit "1e-6") eq_refl eq_refl).
Defined.

(** *** [delta_below]: what is not caught, limits and values that never
    give a message, the order of the two specs *)

(** Rounding does not look at the sign: the two orders of a subtraction
    give opposite floats, of the same magnitude. *)
Lemma binary_round_aux_abs (m e : Z) (l : location) :
  fabs (binary_round_aux prec emax true m e l)
  = fabs (binary_round_aux prec emax false m e l).
Proof.
  unfold binary_round_aux.
  destruct (shr_fexp prec emax m e l) as [mrs' e'].
  destruct (shr_fexp prec emax _ e' loc_Exact) as [mrs'' e''].
  destruct (shr_m mrs'') as [| q | q]; try reflexivity.
  destruct (e'' <=? emax - prec); reflexivity.
Qed.

Lemma binary_normalize_abs (D e : Z) :
  fabs (binary_normalize prec emax (- D) e false)
  = fabs (binary_normalize prec emax D e false).
Proof.
  destruct D as [| p | p]; simpl Z.opp; simpl binary_normalize; [reflexivity | |];
    unfold binary_round; destruct (shl_align _ _ _) as [mz ez];
    [| symmetry]; apply binary_round_aux_abs.
Qed.

Lemma fabs_fsub_comm (a b : spec_float) : fabs (fsub a b) = fabs (fsub b a).
Proof.
  destruct a as [sa | sa | | sa ma ea], b as [sb | sb | | sb mb eb];
    try reflexivity;
    try (destruct sa; reflexivity);
    try (destruct sb; reflexivity);
    try (destruct sa, sb; reflexivity).
  unfold fsub, SFsub. rewrite (Z.min_comm eb ea).
  rewrite <- binary_normalize_abs. f_equal. f_equal. lia.
Qed.

Lemma fabs_not_below (d l : spec_float) : flt fzero l = false -> flt (fabs d) l = false.
Proof.
  destruct d as [s | s | | s m e], l as [t | t | | t n f]; try reflexivity;
    destruct t; try reflexivity; try discriminate.
Qed.

Section DeltaBelowEdges.

Variables (limit : pyval) (spec1 spec0 : spec) (absolute_value : bool).
Variables (name : option string) (kw : kwargs) (r : Result) (w : world).

(** X9. The check catches the four classes of its [except] clauses and
    nothing else: another exception of the [spec1] extraction is raised at
    once, and another exception of the [spec0] extraction is raised also
    when the [spec1] extraction has given a value, or a failure that was
    caught. *)
Theorem delta_below_not_caught (e : exc) :
  except extraction_errors e = false ->
  (glom r spec1 kw = Raise e ->
   delta_below limit spec1 spec0 absolute_value name kw r w = (w, Raise e))
  /\ (forall v, glom r spec1 kw = Return v -> glom r spec0 kw = Raise e ->
        delta_below limit spec1 spec0 absolute_value name kw r w = (w, Raise e))
  /\ (forall e1, glom r spec1 kw = Raise e1 -> except extraction_errors e1 = true ->
        glom r spec0 kw = Raise e ->
        delta_below limit spec1 spec0 absolute_value name kw r w = (w, Raise e)).
Proof.
  intros C. split; [| split].
  - intros H1. unfold delta_below, lift.
    rewrite (try_glom_passed kw r spec1 None e H1 C). reflexivity.
  - intros v H1 H0. unfold delta_below, lift.
    rewrite (try_glom_Return kw r spec1 None v H1). cbn [obind].
    rewrite (try_glom_passed kw r spec0 None e H0 C). reflexivity.
  - intros e1 H1 C1 H0. unfold delta_below, lift.
    rewrite (try_glom_caught kw r spec1 None e1 H1 C1). cbn [obind].
    rewrite (try_glom_passed kw r spec0 (Some e1) e H0 C). reflexivity.
Qed.

(** X10. When both extractions raise nothing and both yield [None], as with
    [default=None] on a record without the two values, the check does not
    return [None]: it raises the [TypeError] of [None - None]. *)
Theorem delta_below_both_None :
  glom r spec1 kw = Return PNone ->
  glom r spec0 kw = Return PNone ->
  delta_below limit spec1 spec0 absolute_value name kw r w
  = (w, Raise (Exc TypeError
                 "unsupported operand type(s) for -: 'NoneType' and 'NoneType'")).
Proof.
  intros H1 H0. unfold delta_below, lift.
  rewrite (try_glom_Return kw r spec1 None PNone H1). cbn [obind].
  rewrite (try_glom_Return kw r spec0 None PNone H0). reflexivity.
Qed.

(** X11. [limit] is converted by [float] at each call, after the
    difference has been taken, and not when the check is constructed: with
    two floats extracted, what [float(limit)] raises is raised by the
    check. *)
Theorem delta_below_bad_limit (a b : spec_float) (e : exc) :
  glom r spec1 kw = Return (PFloat a) ->
  glom r spec0 kw = Return (PFloat b) ->
  py_float limit = Raise e ->
  delta_below limit spec1 spec0 absolute_value name kw r w = (w, Raise e).
Proof.
  intros H1 H0 Hl. unfold delta_below, lift.
  rewrite (try_glom_Return kw r spec1 None _ H1). cbn [obind].
  rewrite (try_glom_Return kw r spec0 None _ H0). cbn [obind is_None xorb py_sub].
  destruct absolute_value; cbn [py_abs obind]; rewrite Hl; reflexivity.
Qed.

(** X12. With [absolute_value] set, a limit that is not above zero never
    gives a message: for two floats extracted and [float(limit)] zero,
    negative or NaN the check returns [None]. *)
Theorem delta_below_abs_limit (a b l : spec_float) :
  glom r spec1 kw = Return (PFloat a) ->
  glom r spec0 kw = Return (PFloat b) ->
  py_float limit = Return l ->
  flt fzero l = false ->
  delta_below limit spec1 spec0 true name kw r w = (w, Return PNone).
Proof.
  intros H1 H0 Hl Hz. unfold delta_below, lift.
  rewrite (try_glom_Return kw r spec1 None _ H1). cbn [obind].
  rewrite (try_glom_Return kw r spec0 None _ H0).
  cbn [obind is_None xorb py_sub py_abs]. rewrite Hl.
  cbn [obind py_lt_float]. rewrite (fabs_not_below _ l Hz). reflexivity.
Qed.

(** X13. A NaN among the two floats extracted never gives a message: the
    difference is NaN, and NaN is below no limit. *)
Theorem delta_below_nan (a b l : spec_float) :
  glom r spec1 kw = Return (PFloat a) ->
  glom r spec0 kw = Return (PFloat b) ->
  py_float limit = Return l ->
  a = S754_nan \/ b = S754_nan ->
  delta_below limit spec1 spec0 absolute_value name kw r w = (w, Return PNone).
Proof.
  intros H1 H0 Hl Hn. unfold delta_below, lift.
  rewrite (try_glom_Return kw r spec1 None _ H1). cbn [obind].
  rewrite (try_glom_Return kw r spec0 None _ H0).
  cbn [obind is_None xorb py_sub].
  assert (E : fsub a b = S754_nan).
  { destruct Hn as [-> | ->]; [| destruct a]; reflexivity. }
  rewrite E. destruct absolute_value; cbn [py_abs obind fabs SFabs]; rewrite Hl;
    reflexivity.
Qed.

(** X14. With [absolute_value] set the check does not depend on the order
    of the two specs: for two floats extracted, [delta_below] with [spec1]
    and [spec0] exchanged returns the same result, under the same name. *)
Theorem delta_below_abs_symmetric (a b : spec_float) (nm : string) :
  glom r spec1 kw = Return (PFloat a) ->
  glom r spec0 kw = Return (PFloat b) ->
  delta_below limit spec0 spec1 true (Some nm) kw r w
  = delta_below limit spec1 spec0 true (Some nm) kw r w.
Proof.
  intros H1 H0. unfold delta_below, lift.
  rewrite (try_glom_Return kw r spec1 None _ H1).
  rewrite (try_glom_Return kw r spec0 None _ H0). cbn [obind].
  rewrite (try_glom_Return kw r spec1 None _ H1).
  rewrite (try_glom_Return kw r spec0 None _ H0).
  cbn [obind is_None xorb py_sub py_abs delta_name name_or].
  rewrite (fabs_fsub_comm b a). reflexivity.
Qed.

End DeltaBelowEdges.

(** The extraction of the first spec raises [TypeError]. *)
Lemma delta_below_not_caught_witness :
  delta_below (PStr "1e-4")
    (SCallable "<function f>" (fun _ => Raise (Exc TypeError "no value")))
    (info_val (-1)) true None no_kwargs (record_of [PFloat (float_lit "9e-1")]) []
  = ([], Raise (Exc TypeError "no value")).
Proof.
  exact (proj1 (delta_below_not_caught (PStr "1e-4")
           (SCallable "<function f>" (fun _ => Raise (Exc TypeError "no value")))
           (info_val (-1)) true None no_kwargs (record_of [PFloat (float_lit "9e-1")]) []
           (Exc TypeError "no value") eq_refl) eq_refl).
Defined.

(** [delta_below('1e-4', default=None)] on a record without info values. *)
Lemma delta_below_both_None_witness :
  delta_below (PStr "1e-4") (info_val (-1)) (info_val (-2)) true None
    {| default := Some PNone |} (record_of []) []
  = ([], Raise (Exc TypeError
                  "unsupported operand type(s) for -: 'NoneType' and 'NoneType'")).
Proof.
  exact (delta_below_both_None (PStr "1e-4") (info_val (-1)) (info_val (-2)) true None
           {| default := Some PNone |} (record_of []) [] eq_refl eq_refl).
Defined.

(** The limit ['tiny'] is accepted by the constructor and refused at the
    first call that compares. *)
Lemma delta_below_bad_limit_witness :
  delta_below (PStr "tiny") (info_val (-1)) (info_val (-2)) true None no_kwargs
    (record_of [PFloat (float_lit "2e-1"); PFloat (float_lit "1e-1")]) []
  = ([], Raise (Exc ValueError "could not convert string to float: 'tiny'")).
Proof.
  exact (delta_below_bad_limit (PStr "tiny") (info_val (-1)) (info_val (-2)) true None
           no_kwargs
           (record_of [PFloat (float_lit "2e-1"); PFloat (float_lit "1e-1")]) []
           (float_lit "1e-1") (float_lit "2e-1") _ eq_refl eq_refl eq_refl).
Defined.

(** [delta_below(0)] on two equal values: the difference [0.0] is not below
    the limit [0]. *)
Lemma delta_below_abs_limit_witness :
  delta_below (PInt 0) (info_val (-1)) (info_val (-2)) true None no_kwargs
    (record_of [PFloat (float_lit "1e-1"); PFloat (float_lit "1e-1")]) []
  = ([], Return PNone).
Proof.
  exact (delta_below_abs_limit (PInt 0) (info_val (-1)) (info_val (-2)) None no_kwargs
           (record_of [PFloat (float_lit "1e-1"); PFloat (float_lit "1e-1")]) []
           (float_lit "1e-1") (float_lit "1e-1") fzero eq_refl eq_refl eq_refl eq_refl).
Defined.

(** The last info value is NaN. *)
Lemma delta_below_nan_witness :
  delta_below (PStr "1e-4") (info_val (-1)) (info_val (-2)) true None no_kwargs
    (record_of [PFloat (float_lit "1e-1"); PFloat S754_nan]) []
  = ([], Return PNone).
Proof.
  exact (delta_below_nan (PStr "1e-4") (info_val (-1)) (info_val (-2)) true None no_kwargs
           (record_of [PFloat (float_lit "1e-1"); PFloat S754_nan]) []
           S754_nan (float_lit "1e-1") (float_lit "1e-4") eq_refl eq_refl eq_refl
           (or_introl eq_refl)).
Defined.

(** The last two info values [1e-6] and [1e-7], in the two orders. *)
Lemma delta_below_abs_symmetric_witness :
  delta_below (PStr "1e-4") (info_val (-2)) (info_val (-1)) true (Some "ΔJ_T") no_kwargs
    (record_of [PFloat (float_lit "1e-6"); PFloat (float_lit "1e-7")]) []
  = delta_below (PStr "1e-4") (info_val (-1)) (info_val (-2)) true (Some "ΔJ_T") no_kwargs
      (record_of [PFloat (float_lit "1e-6"); PFloat (float_lit "1e-7")]) [].
Proof.
  exact (delta_below_abs_symmetric (PStr "1e-4") (info_val (-1)) (info_val (-2))
           no_kwargs
           (record_of [PFloat (float_lit "1e-6"); PFloat (float_lit "1e-7")]) []
           (float_lit "1e-7") (float_lit "1e-6") "ΔJ_T" eq_refl eq_refl).
Defined.

(** *** [dump_result] *)

Lemma py_index_last {A} (pre : list A) (x : A) :
  py_index (pre ++ [x])%list (-1) = Some x.
Proof.
  unfold py_index. rewrite length_app. simpl List.length.
  replace (0 <=? -1) with false by reflexivity. simpl andb.
  replace (- Z.of_nat (List.length pre + 1) <=? -1) with true
    by (symmetry; apply Z.leb_le; lia).
  simpl.
  replace (Z.to_nat (Z.of_nat (List.length pre + 1) + -1)) with (List.length pre) by lia.
  rewrite nth_error_app2 by lia. rewrite Nat.sub_diag. reflexivity.
Qed.

(** C7. [dump_result] raises while it is being constructed, so that no
    check is returned, for every [every] that is not positive: with the
    [ValueError] of the source for integers, and for every positive integer
    it returns the check. *)
Theorem dump_result_every (filename : string) :
  (forall every, non_positive every -> exists e, dump_result filename every = Raise e)
  /\ (forall z, z <= 0 ->
        dump_result filename (PInt z) = Raise (Exc ValueError "every must be > 0"))
  /\ (forall n, 0 < n ->
        dump_result filename (PInt n) = Return (_dump_result filename n)).
Proof.
  assert (Neg : forall z, z <= 0 ->
            dump_result filename (PInt z) = Raise (Exc ValueError "every must be > 0")).
  { intros z Hz. unfold dump_result. simpl.
    replace (z <=? 0) with true by (symmetry; apply Z.leb_le; exact Hz).
    reflexivity. }
  split; [| split; [exact Neg |]].
  - intros every H. destruct every as [ | b | z | f | s | l | t q]; simpl in H;
      try contradiction.
    + subst b. eexists. reflexivity.
    + eexists. apply Neg, H.
    + destruct f as [s | s | | s m e].
      * eexists. reflexivity.
      * eexists. reflexivity.
      * discriminate H.
      * destruct s; [| discriminate H].
        assert (L : (- Z.shiftl (Z.pos m) e <=? 0) = true).
        { apply Z.leb_le.
          assert (0 <= Z.shiftl (Z.pos m) e) by (apply Z.shiftl_nonneg; lia). lia. }
        unfold dump_result. simpl. rewrite L. eexists. reflexivity.
  - intros n Hn. unfold dump_result. simpl.
    replace (n <=? 0) with false by (symmetry; apply Z.leb_gt; exact Hn).
    reflexivity.
Qed.

(** [every=0] fails, [every=10] gives the check. *)
Lemma dump_result_every_witness :
  dump_result "oct_result.dump" (PInt 0) = Raise (Exc ValueError "every must be > 0")
  /\ dump_result "oct_result.dump" (PInt 10) = Return (_dump_result "oct_result.dump" 10).
Proof.
  split.
  - apply (proj1 (proj2 (dump_result_every "oct_result.dump")) 0). lia.
  - apply (proj2 (proj2 (dump_result_every "oct_result.dump")) 10). lia.
Defined.

(** C8. The check that [dump_result] returns, on a record whose current
    iteration is [i]: when [i] is no multiple of [every] it returns [None]
    and leaves the world as it is, so [dump] is not invoked; when it is one,
    [dump] is invoked once, on the formatted file name, and the check
    returns [None] when [dump] succeeds and the message [Could not store
    outfile: error] when [dump] raises an [IOError]. *)
Theorem dump_result_check
    (filename : string) (every : pyval) (n : Z) (r : Result) (pre : list Z) (i : Z)
    (w : world) :
  py_int every = Return n ->
  0 < n ->
  iters r = (pre ++ [i])%list ->
  dump_result filename every = Return (_dump_result filename n)
  /\ (i mod n <> 0 -> _dump_result filename n r w = (w, Return PNone))
  /\ (i mod n = 0 -> forall outfile, str_format filename i = Return outfile ->
        (dump r outfile = None ->
           _dump_result filename n r w = ((w ++ [outfile])%list, Return PNone))
        /\ (forall e, dump r outfile = Some e -> except [OSError] e = true ->
              _dump_result filename n r w
              = ((w ++ [outfile])%list,
                 Return (PStr ("Could not store " ++ outfile ++ ": " ++ exc_str e))))).
Proof.
  intros Hn Hpos Hit. split; [| split].
  - unfold dump_result. rewrite Hn. simpl.
    replace (n <=? 0) with false by (symmetry; apply Z.leb_gt; exact Hpos).
    reflexivity.
  - intros Hmod. unfold _dump_result, bind, lift. rewrite Hit, py_index_last.
    replace (i mod n =? 0) with false by (symmetry; apply Z.eqb_neq; exact Hmod).
    reflexivity.
  - intros Hmod outfile Hfmt.
    assert (E : _dump_result filename n r w
                = match dump r outfile with
                  | None => ((w ++ [outfile])%list, Return PNone)
                  | Some e =>
                      if except [OSError] e
                      then ((w ++ [outfile])%list,
                            Return (PStr ("Could not store " ++ outfile ++ ": " ++ exc_str e)))
                      else ((w ++ [outfile])%list, Raise e)
                  end).
    { unfold _dump_result, bind, lift. rewrite Hit, py_index_last.
      replace (i mod n =? 0) with true by (symmetry; apply Z.eqb_eq; exact Hmod).
      rewrite Hfmt. unfold try_except, bind, call_dump, ret.
      destruct (dump r outfile) as [e |]; reflexivity. }
    split.
    + intros Hd. rewrite E, Hd. reflexivity.
    + intros e Hd Hc. rewrite E, Hd, Hc. reflexivity.
Qed.

(** [dump_result(..., every=10)]: nothing at iteration 7; one dump at
    iteration 20; a message at iteration 30 when the storage refuses. *)
Lemma dump_result_check_witness :
  _dump_result "oct_result.dump" 10 (record_at 7 (fun _ => None)) [] = ([], Return PNone)
  /\ _dump_result "oct_result.dump" 10 (record_at 20 (fun _ => None)) []
     = (["oct_result.dump"], Return PNone)
  /\ _dump_result "oct_result.dump" 10
       (record_at 30 (fun _ => Some (Exc PermissionError "[Errno 13] Permission denied"))) []
     = (["oct_result.dump"],
        Return (PStr "Could not store oct_result.dump: [Errno 13] Permission denied")).
Proof.
  split; [| split].
  - apply (proj1 (proj2 (dump_result_check "oct_result.dump" (PInt 10) 10
             (record_at 7 (fun _ => None)) [0] 7 [] eq_refl eq_refl eq_refl))).
    discriminate.
  - apply (proj1 (proj2 (proj2 (dump_result_check "oct_result.dump" (PInt 10) 10
             (record_at 20 (fun _ => None)) [0] 20 [] eq_refl eq_refl eq_refl))
             eq_refl "oct_result.dump" eq_refl)).
    reflexivity.
  - apply (proj2 (proj2 (proj2 (dump_result_check "oct_result.dump" (PInt 10) 10
             (record_at 30 (fun _ => Some (Exc PermissionError "[Errno 13] Permission denied")))
             [0] 30 [] eq_refl eq_refl eq_refl))
             eq_refl "oct_result.dump" eq_refl)
             (Exc PermissionError "[Errno 13] Permission denied")).
    + reflexivity.
    + reflexivity.
Defined.

(** *** The file name of a dump *)

Lemma length_append (a b : string) :
  String.length (a ++ b) = (String.length a + String.length b)%nat.
Proof. induction a as [| c a IH]; simpl; [reflexivity | rewrite IH; reflexivity]. Qed.

Lemma plain_cons (c : ascii) (s : string) :
  plain (String c s) -> (c <> "{"%char /\ c <> "}"%char) /\ plain s.
Proof.
  intros H. split.
  - apply H. left. reflexivity.
  - intros d Hd. apply H. right. exact Hd.
Qed.

Lemma format_from_char (f : nat) (c : ascii) (s : string) (v : Z) :
  c <> "{"%char -> c <> "}"%char ->
  format_from (S f) (String c s) v
  = obind (format_from f s v) (fun out => Return (String c out)).
Proof.
  intros H1 H2. destruct c as [b0 b1 b2 b3 b4 b5 b6 b7].
  destruct b0, b1, b2, b3, b4, b5, b6, b7; try reflexivity; exfalso;
    first [apply H1; reflexivity | apply H2; reflexivity].
Qed.

Lemma format_from_plain (s : string) (v : Z) :
  plain s -> forall f, (String.length s <= f)%nat -> format_from f s v = Return s.
Proof.
  induction s as [| c s IH]; intros P f Hf.
  - destruct f; reflexivity.
  - destruct (plain_cons _ _ P) as [[H1 H2] P'].
    destruct f as [| f]; [simpl in Hf; lia |].
    rewrite (format_from_char f c s v H1 H2), (IH P' f) by (simpl in Hf; lia).
    reflexivity.
Qed.

Lemma split_at_stop (c : ascii) (a b : string) :
  ~ In c (list_ascii_of_string a) -> split_at c (a ++ String c b) = (a, Some b).
Proof.
  induction a as [| d a IH]; intros H; simpl.
  - rewrite Ascii.eqb_refl. reflexivity.
  - destruct (Ascii.eqb_spec d c) as [-> | _].
    + exfalso. apply H. left. reflexivity.
    + rewrite IH; [reflexivity |]. intros Hin. apply H. right. exact Hin.
Qed.

(** A template with plain text around one field that starts with [iter]. *)
Lemma format_from_iter_field (a tail b : string) (v : Z) :
  plain a -> plain b -> ~ In "}"%char (list_ascii_of_string tail) ->
  forall f, (String.length a + 1 + String.length b <= f)%nat ->
  format_from f (a ++ "{iter" ++ tail ++ "}" ++ b) v
  = obind (format_field ("iter" ++ tail) v) (fun txt => Return (a ++ txt ++ b)).
Proof.
  intros Pa Pb Ht. induction a as [| c a IH]; intros f Hf.
  - destruct f as [| f]; [simpl in Hf; lia |].
    change ("" ++ "{iter" ++ tail ++ "}" ++ b)
      with (String "{" (String "i" (String "t" (String "e" (String "r"
              (tail ++ String "}" b)))))).
    cbn [format_from].
    change (String "i" (String "t" (String "e" (String "r" (tail ++ String "}" b)))))
      with (("iter" ++ tail) ++ String "}" b).
    rewrite (split_at_stop "}" ("iter" ++ tail) b).
    + rewrite (format_from_plain b v Pb f) by (simpl in Hf; lia).
      destruct (format_field ("iter" ++ tail) v); reflexivity.
    + simpl. intros [H | [H | [H | [H | H]]]]; try discriminate H. exact (Ht H).
  - destruct (plain_cons _ _ Pa) as [[H1 H2] Pa'].
    destruct f as [| f]; [simpl in Hf; lia |].
    change ((String c a) ++ "{iter" ++ tail ++ "}" ++ b)
      with (String c (a ++ "{iter" ++ tail ++ "}" ++ b)).
    rewrite (format_from_char f c _ v H1 H2), (IH Pa' f) by (simpl in Hf; lia).
    destruct (format_field ("iter" ++ tail) v); reflexivity.
Qed.

Lemma format_int_plain (v : Z) : 0 <= v -> format_int v "" = Return (str_of_Z v).
Proof.
  intros Hv. unfold format_int. simpl.
  replace (v <? 0) with false by (symmetry; apply Z.ltb_ge; exact Hv).
  rewrite Z.abs_eq by exact Hv. simpl.
  replace (Z.to_nat (- Z.of_nat (String.length (str_of_Z v)))) with 0%nat by lia.
  reflexivity.
Qed.

Lemma format_int_06d (v : Z) :
  0 <= v ->
  format_int v "06d"
  = Return (zeros (6 - Z.of_nat (String.length (str_of_Z v))) ++ str_of_Z v).
Proof.
  intros Hv. unfold format_int. simpl.
  replace (v <? 0) with false by (symmetry; apply Z.ltb_ge; exact Hv).
  rewrite Z.abs_eq by exact Hv. reflexivity.
Qed.

(** C9, as the code has it.  The recognized field is named [iter].  On
    every call where a dump is due the check dumps to
    [filename.format(iter=iteration)].  For a template with plain text
    around one field [{iter:spec}], the file name has, in the place of the
    field, the text that [spec] gives for the iteration number; around one
    field [{iter}] it has the decimal text of the number, and around
    [{iter:06d}] that text filled up with zeros to six characters. *)
Theorem dump_result_outfile
    (filename : string) (n : Z) (r : Result) (pre : list Z) (i : Z) (w : world) :
  0 < n ->
  iters r = (pre ++ [i])%list ->
  i mod n = 0 ->
  (forall outfile, str_format filename i = Return outfile ->
     fst (_dump_result filename n r w) = (w ++ [outfile])%list)
  /\ (forall a spec b txt,
        filename = a ++ "{iter:" ++ spec ++ "}" ++ b ->
        plain a -> plain b -> ~ In "}"%char (list_ascii_of_string spec) ->
        format_int i spec = Return txt ->
        str_format filename i = Return (a ++ txt ++ b))
  /\ (forall a b,
        filename = a ++ "{iter}" ++ b -> plain a -> plain b -> 0 <= i ->
        str_format filename i = Return (a ++ str_of_Z i ++ b))
  /\ (forall a b,
        filename = a ++ "{iter:06d}" ++ b -> plain a -> plain b -> 0 <= i ->
        str_format filename i
        = Return (a ++ (zeros (6 - Z.of_nat (String.length (str_of_Z i)))
                        ++ str_of_Z i) ++ b)).
Proof.
  intros Hn Hit Hmod.
  assert (F : forall a spec b txt,
            plain a -> plain b -> ~ In "}"%char (list_ascii_of_string spec) ->
            format_int i spec = Return txt ->
            str_format (a ++ "{iter:" ++ spec ++ "}" ++ b) i = Return (a ++ txt ++ b)).
  { intros a spec b txt Pa Pb Hs Hf. unfold str_format.
    rewrite (format_from_iter_field a (":" ++ spec) b i Pa Pb).
    - change (format_field ("iter" ++ ":" ++ spec) i) with (format_int i spec).
      rewrite Hf. reflexivity.
    - intros [H | H]; [discriminate H | exact (Hs H)].
    - rewrite !length_append. simpl. lia. }
  split; [| split; [| split]].
  - intros outfile Hf. unfold _dump_result, bind, lift. rewrite Hit, py_index_last.
    replace (i mod n =? 0) with true by (symmetry; apply Z.eqb_eq; exact Hmod).
    rewrite Hf. unfold try_except, bind, call_dump, ret.
    destruct (dump r outfile) as [e |]; [destruct (except [OSError] e) |]; reflexivity.
  - intros a spec b txt -> Pa Pb Hs Hf. exact (F a spec b txt Pa Pb Hs Hf).
  - intros a b -> Pa Pb Hi. unfold str_format.
    rewrite (format_from_iter_field a "" b i Pa Pb).
    + change (format_field ("iter" ++ "") i) with (format_int i "").
      rewrite (format_int_plain i Hi). reflexivity.
    + intros H. exact H.
    + rewrite !length_append. simpl. lia.
  - intros a b -> Pa Pb Hi.
    apply (F a "06d" b _ Pa Pb).
    + simpl. intros [H | [H | [H | H]]]; try discriminate H. exact H.
    + exact (format_int_06d i Hi).
Qed.

(** [dump_result('r_{iter:06d}.dump', every=100)] at iteration 200 dumps to
    [r_000200.dump]. *)
Lemma dump_result_outfile_witness :
  fst (_dump_result "r_{iter:06d}.dump" 100 (record_at 200 (fun _ => None)) [])
  = ["r_000200.dump"].
Proof.
  apply (proj1 (dump_result_outfile "r_{iter:06d}.dump" 100
                  (record_at 200 (fun _ => None)) [0] 200 [] eq_refl eq_refl eq_refl)
           "r_000200.dump").
  reflexivity.
Defined.

(** C9 as stated fails: the template of the claim names the field
    [iteration]; at iteration 200 the formatting raises [KeyError] and
    nothing is dumped. *)
Lemma dump_result_iteration_field :
  dump_result "r_{iteration:06d}.dump" (PInt 100)
  = Return (_dump_result "r_{iteration:06d}.dump" 100)
  /\ _dump_result "r_{iteration:06d}.dump" 100 (record_at 200 (fun _ => None)) []
     = ([], Raise (Exc KeyError "'iteration'")).
Proof. split; reflexivity. Qed.

(** *** [dump_result]: what is not caught, chaining, the value of [every] *)

Section DumpResult.

Variables (filename : string) (n : Z) (r : Result) (w : world).

(** X15. The check catches the [IOError] of [dump] and nothing else: with no
    iteration number in the record it raises [IndexError] and does not
    dump, and an exception of [dump] that is no [IOError] is raised after
    that one call of [dump]. *)
Theorem dump_result_not_caught :
  (iters r = [] ->
   _dump_result filename n r w = (w, Raise (Exc IndexError "list index out of range")))
  /\ (forall pre i outfile e,
        0 < n -> iters r = (pre ++ [i])%list -> i mod n = 0 ->
        str_format filename i = Return outfile ->
        dump r outfile = Some e -> except [OSError] e = false ->
        _dump_result filename n r w = ((w ++ [outfile])%list, Raise e)).
Proof.
  split.
  - intros H. unfold _dump_result, bind, lift. rewrite H. reflexivity.
  - intros pre i outfile e _ Hit Hmod Hf Hd Hc.
    unfold _dump_result, bind, lift. rewrite Hit, py_index_last.
    replace (i mod n =? 0) with true by (symmetry; apply Z.eqb_eq; exact Hmod).
    rewrite Hf. unfold try_except, bind, call_dump, ret. rewrite Hd, Hc. reflexivity.
Qed.

(** X16. A call of the check invokes [dump] at most once, and never after
    it has raised: the world after the call is the world before it, with no
    path or one path added. *)
Theorem dump_result_at_most_once :
  0 < n ->
  exists log, fst (_dump_result filename n r w) = (w ++ log)%list
              /\ (List.length log <= 1)%nat.
Proof.
  intros _. unfold _dump_result, bind, lift.
  destruct (py_index (iters r) (-1)) as [i |];
    [| exists []; rewrite app_nil_r; split; [reflexivity | simpl; lia]].
  destruct (i mod n =? 0);
    [| exists []; rewrite app_nil_r; split; [reflexivity | simpl; lia]].
  destruct (str_format filename i) as [outfile | e];
    [| exists []; rewrite app_nil_r; split; [reflexivity | simpl; lia]].
  exists [outfile]. split; [| simpl; lia].
  unfold try_except, bind, call_dump, ret.
  destruct (dump r outfile) as [e |]; [destruct (except [OSError] e) |]; reflexivity.
Qed.

(** X17. The check chained with other checks in [Or], as the module
    intends it: when no dump is due, or when the dump succeeds, the
    combination goes on with the checks that follow; when the dump raises an
    [IOError] the combination stops with the message and the checks that
    follow are not evaluated. *)
Theorem dump_result_in_Or (rest : list predicate) (pre : list Z) (i : Z) :
  0 < n ->
  iters r = (pre ++ [i])%list ->
  (i mod n <> 0 -> Or (_dump_result filename n :: rest) r w = Or rest r w)
  /\ (i mod n = 0 -> forall outfile, str_format filename i = Return outfile ->
        (dump r outfile = None ->
           Or (_dump_result filename n :: rest) r w
           = Or rest r (w ++ [outfile])%list)
        /\ (forall e, dump r outfile = Some e -> except [OSError] e = true ->
              Or (_dump_result filename n :: rest) r w
              = ((w ++ [outfile])%list,
                 Return (PStr ("Could not store " ++ outfile ++ ": " ++ exc_str e))))).
Proof.
  intros _ Hit. split.
  - intros Hmod. simpl. unfold _dump_result, bind, lift. rewrite Hit, py_index_last.
    replace (i mod n =? 0) with false by (symmetry; apply Z.eqb_neq; exact Hmod).
    reflexivity.
  - intros Hmod outfile Hf. split.
    + intros Hd. simpl. unfold _dump_result, bind, lift. rewrite Hit, py_index_last.
      replace (i mod n =? 0) with true by (symmetry; apply Z.eqb_eq; exact Hmod).
      rewrite Hf. unfold try_except, bind, call_dump, ret. rewrite Hd. reflexivity.
    + intros e Hd Hc. simpl. unfold _dump_result, bind, lift.
      rewrite Hit, py_index_last.
      replace (i mod n =? 0) with true by (symmetry; apply Z.eqb_eq; exact Hmod).
      rewrite Hf. unfold try_except, bind, call_dump, ret. rewrite Hd, Hc.
      reflexivity.
Qed.

(** X18. A file name without braces is used as it is: every due dump goes
    to the same file, whatever the iteration number. *)
Theorem dump_result_plain_filename (pre : list Z) (i : Z) :
  plain filename ->
  0 < n ->
  iters r = (pre ++ [i])%list ->
  i mod n = 0 ->
  fst (_dump_result filename n r w) = (w ++ [filename])%list.
Proof.
  intros P _ Hit Hmod. unfold _dump_result, bind, lift. rewrite Hit, py_index_last.
  replace (i mod n =? 0) with true by (symmetry; apply Z.eqb_eq; exact Hmod).
  unfold str_format. rewrite (format_from_plain filename i P) by lia.
  unfold try_except, bind, call_dump, ret.
  destruct (dump r filename) as [e |]; [destruct (except [OSError] e) |]; reflexivity.
Qed.

End DumpResult.

Lemma dump_result_not_caught_witness :
  _dump_result "oct_result.dump" 10
    (record_at 20 (fun _ => Some (Exc TypeError "cannot pickle"))) []
  = (["oct_result.dump"], Raise (Exc TypeError "cannot pickle")).
Proof.
  exact (proj2 (dump_result_not_caught "oct_result.dump" 10
                  (record_at 20 (fun _ => Some (Exc TypeError "cannot pickle"))) [])
           [0] 20 "oct_result.dump" (Exc TypeError "cannot pickle")
           eq_refl eq_refl eq_refl eq_refl eq_refl eq_refl).
Defined.

(** [Or(dump_result('oct_result.dump'), value_below('1e-4'))] at iteration 20
    on a storage that refuses: the combination stops, the second check is
    not reached. *)
Lemma dump_result_in_Or_witness :
  Or [_dump_result "oct_result.dump" 10; stub "next" PNone]
    (record_at 20 (fun _ => Some (Exc PermissionError "[Errno 13] Permission denied"))) []
  = (["oct_result.dump"],
     Return (PStr "Could not store oct_result.dump: [Errno 13] Permission denied")).
Proof.
  exact (proj2 (proj2 (dump_result_in_Or "oct_result.dump" 10
          (record_at 20 (fun _ => Some (Exc PermissionError "[Errno 13] Permission denied")))
          [] [stub "next" PNone] [0] 20 eq_refl eq_refl) eq_refl "oct_result.dump"
          eq_refl)
          (Exc PermissionError "[Errno 13] Permission denied") eq_refl eq_refl).
Defined.

(** [dump_result('oct_result.dump')] at the iterations 10 and 20. *)
Lemma dump_result_plain_filename_witness :
  fst (_dump_result "oct_result.dump" 10 (record_at 10 (fun _ => None)) [])
  = ["oct_result.dump"]
  /\ fst (_dump_result "oct_result.dump" 10 (record_at 20 (fun _ => None))
            ["oct_result.dump"])
     = ["oct_result.dump"; "oct_result.dump"].
Proof.
  assert (P : plain "oct_result.dump").
  { intros c H. simpl in H.
    repeat (destruct H as [<- | H]; [split; discriminate |]). contradiction. }
  split.
  - exact (dump_result_plain_filename "oct_result.dump" 10
             (record_at 10 (fun _ => None)) [] [0] 10 P eq_refl eq_refl eq_refl).
  - exact (dump_result_plain_filename "oct_result.dump" 10
             (record_at 20 (fun _ => None)) ["oct_result.dump"] [0] 20 P eq_refl eq_refl
             eq_refl).
Defined.

(** At iteration 20 with [every=10]: one path is added. *)
Lemma dump_result_at_most_once_witness :
  exists log,
    fst (_dump_result "oct_result.dump" 10 (record_at 20 (fun _ => None)) [])
    = ([] ++ log)%list
    /\ (List.length log <= 1)%nat.
Proof.
  exact (dump_result_at_most_once "oct_result.dump" 10
           (record_at 20 (fun _ => None)) [] eq_refl).
Defined.

(** *** [dump_result]: [every] given as a float *)

Lemma compare_cont_Eq (p q : positive) : PosDef.Pos.compare_cont Eq p q = Pos.compare p q.
Proof. reflexivity. Qed.

Lemma pow2_52 : 2 ^ 52 = 4503599627370496.
Proof. reflexivity. Qed.

(** A positive float is below [1.0] when its exponent is below [-52], or is
    [-52] with a mantissa below [2^52]. *)
Lemma flt_fone (m : positive) (e : Z) :
  flt (S754_finite false m e) fone
  = (e <? -52) || ((e =? -52) && (Zpos m <? 2 ^ 52)).
Proof.
  unfold flt, SFltb, SFcompare, fone. rewrite pow2_52, compare_cont_Eq.
  destruct (Z.compare_spec e (-52)) as [E | L | G].
  - subst e. rewrite Z.ltb_irrefl, Z.eqb_refl. cbn [orb andb].
    unfold Z.ltb. rewrite <- Pos2Z.inj_compare.
    destruct (Pos.compare m 4503599627370496); reflexivity.
  - replace (e <? -52) with true by (symmetry; apply Z.ltb_lt; exact L). reflexivity.
  - replace (e <? -52) with false by (symmetry; apply Z.ltb_ge; lia).
    replace (e =? -52) with false by (symmetry; apply Z.eqb_neq; lia). reflexivity.
Qed.

Lemma shiftl_below_one (m : positive) (e : Z) :
  bounded prec emax m e = true ->
  flt (S754_finite false m e) fone = true ->
  Z.shiftl (Zpos m) e = 0.
Proof.
  intros B H. destruct (canonical_bounds _ _ B) as (_ & Hm & _).
  unfold prec in Hm. rewrite flt_fone in H. clear B.
  assert (He : e < 0 /\ Zpos m < 2 ^ (- e)).
  { apply orb_true_iff in H. destruct H as [H | H].
    - apply Z.ltb_lt in H. split; [lia |].
      apply Z.lt_le_trans with (2 ^ 53); [exact Hm |].
      apply Z.pow_le_mono_r; lia.
    - apply andb_true_iff in H. destruct H as [E H].
      apply Z.eqb_eq in E. apply Z.ltb_lt in H. subst e. split; [lia | exact H]. }
  destruct He as [He Hlt].
  rewrite Z.shiftl_div_pow2 by lia. apply Z.div_small. split; [lia | exact Hlt].
Qed.

Lemma shiftl_one_or_more (m : positive) (e : Z) :
  bounded prec emax m e = true ->
  flt (S754_finite false m e) fone = false ->
  1 <= Z.shiftl (Zpos m) e.
Proof.
  intros B H. destruct (canonical_bounds _ _ B) as (He & _ & Hn).
  change (SpecFloat.emin prec emax) with (-1074) in *. unfold prec in Hn.
  rewrite flt_fone in H. clear B.
  apply orb_false_iff in H. destruct H as [H1 H2]. apply Z.ltb_ge in H1.
  destruct (Z.le_gt_cases 0 e) as [P | N].
  - rewrite Z.shiftl_mul_pow2 by lia.
    assert (0 < 2 ^ e) by (apply Z.pow_pos_nonneg; lia). nia.
  - rewrite Z.shiftl_div_pow2 by lia.
    assert (Hp : 0 < 2 ^ (- e)) by (apply Z.pow_pos_nonneg; lia).
    apply Z.div_le_lower_bound; [exact Hp |]. rewrite Z.mul_1_r.
    destruct (Z.eq_dec e (-52)) as [-> | Ne].
    + rewrite Z.eqb_refl in H2. simpl andb in H2. apply Z.ltb_ge in H2. exact H2.
    + specialize (Hn ltac:(lia)).
      apply Z.le_trans with (2 ^ (53 - 1)); [| exact Hn].
      apply Z.pow_le_mono_r; lia.
Qed.

(** X19. [every] given as a float is truncated by [int()] before it is
    tested.  For every finite float below [1.0], also a positive one such
    as [0.5], [dump_result] raises [ValueError: every must be > 0] while the
    check is being constructed; for a finite float that is not below [1.0]
    it returns the check for the truncated value, which is at least 1. *)
Theorem dump_result_float_every (filename : string) (f : spec_float) :
  is_binary64 f ->
  (flt f fone = true -> f <> S754_infinity true ->
     dump_result filename (PFloat f) = Raise (Exc ValueError "every must be > 0"))
  /\ (forall s m e, f = S754_finite s m e -> flt f fone = false ->
        dump_result filename (PFloat f)
        = Return (_dump_result filename (Z.shiftl (Zpos m) e))
        /\ 1 <= Z.shiftl (Zpos m) e).
Proof.
  intros V. split.
  - intros H Hinf. destruct f as [s | s | | s m e].
    + reflexivity.
    + destruct s; [exfalso; apply Hinf; reflexivity | discriminate H].
    + discriminate H.
    + unfold dump_result. cbn [py_int obind]. destruct s.
      * assert (L : (cond_Zopp true (Z.shiftl (Z.pos m) e) <=? 0) = true).
        { apply Z.leb_le. cbn [cond_Zopp].
          assert (0 <= Z.shiftl (Z.pos m) e) by (apply Z.shiftl_nonneg; lia). lia. }
        rewrite L. reflexivity.
      * cbn [cond_Zopp]. rewrite (shiftl_below_one m e V H). reflexivity.
  - intros s m e -> H. destruct s; [discriminate H |].
    pose proof (shiftl_one_or_more m e V H) as L. split; [| exact L].
    unfold dump_result. cbn [py_int obind cond_Zopp].
    replace (Z.shiftl (Z.pos m) e <=? 0) with false
      by (symmetry; apply Z.leb_gt; lia).
    reflexivity.
Qed.

(** [every=0.5] is refused; [every=2.5] gives the check of [every=2]. *)
Lemma dump_result_float_every_witness :
  dump_result "oct_result.dump" (PFloat (float_lit "0.5"))
  = Raise (Exc ValueError "every must be > 0")
  /\ dump_result "oct_result.dump" (PFloat (float_lit "2.5"))
     = Return (_dump_result "oct_result.dump" 2).
Proof.
  split.
  - apply (proj1 (dump_result_float_every "oct_result.dump" (float_lit "0.5") eq_refl)).
    + reflexivity.
    + discriminate.
  - exact (proj1 (proj2 (dump_result_float_every "oct_result.dump" (float_lit "2.5")
                           eq_refl)
                    false 5629499534213120%positive (-51) eq_refl eq_refl)).
Defined.

(** *** [dump_result]: the files of different iterations *)

Lemma digits_value_str_of_Z (i : Z) : 0 <= i -> digits_value (str_of_Z i) = Some i.
Proof.
  intros Hi. unfold digits_value, str_of_Z.
  destruct i as [| p | p]; [reflexivity | | lia].
  cbn [Z.to_int NilZero.string_of_int NilZero.string_of_uint].
  pose proof (DecimalPos.Unsigned.to_uint_nonnil p) as Hn.
  replace (NilZero.string_of_uint (Pos.to_uint p))
    with (NilEmpty.string_of_uint (Pos.to_uint p))
    by (destruct (Pos.to_uint p); [contradiction | reflexivity ..]).
  rewrite NilEmpty.usu. cbn [option_map]. unfold Z.of_uint.
  rewrite DecimalPos.Unsigned.of_to. reflexivity.
Qed.

Lemma digits_value_zero (s : string) :
  digits_value (String "0" s) = digits_value s.
Proof.
  unfold digits_value. cbn [NilEmpty.uint_of_string].
  destruct (NilEmpty.uint_of_string s); reflexivity.
Qed.

Lemma digits_value_zeros (k : Z) (s : string) :
  digits_value (zeros k ++ s) = digits_value s.
Proof.
  unfold zeros. induction (Z.to_nat k) as [| n IH]; [reflexivity |].
  cbn [repeat string_of_list_ascii append]. rewrite digits_value_zero. exact IH.
Qed.

Lemma append_inv_head (a s t : string) : a ++ s = a ++ t -> s = t.
Proof.
  induction a as [| c a IH]; simpl; intros H; [exact H |].
  injection H as H. exact (IH H).
Qed.

Lemma append_inv_tail (b : string) : forall s t : string, s ++ b = t ++ b -> s = t.
Proof.
  induction s as [| c s IH]; intros t H.
  - destruct t as [| d t]; [reflexivity |].
    apply (f_equal String.length) in H. simpl in H.
    rewrite length_append in H. lia.
  - destruct t as [| d t].
    + apply (f_equal String.length) in H. simpl in H.
      rewrite length_append in H. lia.
    + simpl in H. injection H as Hc H. subst d. rewrite (IH t H). reflexivity.
Qed.

(** A dump that is due goes to the formatted file name. *)
Lemma dump_result_due (filename : string) (n : Z) (r : Result) (pre : list Z) (i : Z)
    (w : world) (outfile : string) :
  iters r = (pre ++ [i])%list -> i mod n = 0 ->
  str_format filename i = Return outfile ->
  fst (_dump_result filename n r w) = (w ++ [outfile])%list.
Proof.
  intros Hit Hmod Hf. unfold _dump_result, bind, lift. rewrite Hit, py_index_last.
  replace (i mod n =? 0) with true by (symmetry; apply Z.eqb_eq; exact Hmod).
  rewrite Hf. unfold try_except, bind, call_dump, ret.
  destruct (dump r outfile) as [e |]; [destruct (except [OSError] e) |]; reflexivity.
Qed.

(** The template [a{iter}b] or [a{iter:06d}b] gives the iteration number,
    filled up with zeros, between [a] and [b]. *)
Lemma str_format_iter (filename a b : string) (i : Z) :
  filename = a ++ "{iter}" ++ b \/ filename = a ++ "{iter:06d}" ++ b ->
  plain a -> plain b -> 0 <= i ->
  exists k, str_format filename i = Return (a ++ (zeros k ++ str_of_Z i) ++ b).
Proof.
  intros [-> | ->] Pa Pb Hi; unfold str_format.
  - exists 0. rewrite (format_from_iter_field a "" b i Pa Pb).
    + change (format_field ("iter" ++ "") i) with (format_int i "").
      rewrite (format_int_plain i Hi). reflexivity.
    + intros H. exact H.
    + rewrite !length_append. simpl. lia.
  - exists (6 - Z.of_nat (String.length (str_of_Z i))).
    rewrite (format_from_iter_field a ":06d" b i Pa Pb).
    + change (format_field ("iter" ++ ":06d") i) with (format_int i "06d").
      rewrite (format_int_06d i Hi). reflexivity.
    + simpl. intros [H | [H | [H | [H | H]]]]; try discriminate H. exact H.
    + rewrite !length_append. simpl. lia.
Qed.

(** X20. With the field [{iter}] or [{iter:06d}] in the file name, the
    dumps of two different iterations go to two different files: a later
    dump does not overwrite an earlier one. *)
Theorem dump_result_distinct_files
    (filename a b : string) (n : Z) (ri rj : Result) (prei prej : list Z) (i j : Z)
    (w : world) :
  filename = a ++ "{iter}" ++ b \/ filename = a ++ "{iter:06d}" ++ b ->
  plain a -> plain b ->
  0 < n ->
  iters ri = (prei ++ [i])%list -> iters rj = (prej ++ [j])%list ->
  0 <= i -> 0 <= j -> i mod n = 0 -> j mod n = 0 ->
  i <> j ->
  exists fi fj,
    fst (_dump_result filename n ri w) = (w ++ [fi])%list
    /\ fst (_dump_result filename n rj w) = (w ++ [fj])%list
    /\ fi <> fj.
Proof.
  intros Hf Pa Pb _ Hi Hj Pi Pj Mi Mj Hij.
  destruct (str_format_iter filename a b i Hf Pa Pb Pi) as [ki Fi].
  destruct (str_format_iter filename a b j Hf Pa Pb Pj) as [kj Fj].
  exists (a ++ (zeros ki ++ str_of_Z i) ++ b), (a ++ (zeros kj ++ str_of_Z j) ++ b).
  split; [exact (dump_result_due filename n ri prei i w _ Hi Mi Fi) |].
  split; [exact (dump_result_due filename n rj prej j w _ Hj Mj Fj) |].
  intros E. apply append_inv_head, append_inv_tail in E.
  apply (f_equal digits_value) in E.
  rewrite !digits_value_zeros, !digits_value_str_of_Z in E by assumption.
  injection E as E. exact (Hij E).
Qed.

(** [dump_result('oct_result_{iter:06d}.dump', every=100)] at the iterations
    100 and 200. *)
Lemma dump_result_distinct_files_witness :
  exists fi fj,
    fst (_dump_result "oct_result_{iter:06d}.dump" 100 (record_at 100 (fun _ => None)) [])
    = ([] ++ [fi])%list
    /\ fst (_dump_result "oct_result_{iter:06d}.dump" 100
              (record_at 200 (fun _ => None)) [])
       = ([] ++ [fj])%list
    /\ fi <> fj.
Proof.
  apply (dump_result_distinct_files "oct_result_{iter:06d}.dump" "oct_result_" ".dump"
           100 (record_at 100 (fun _ => None)) (record_at 200 (fun _ => None))
           [0] [0] 100 200 []).
  - right. reflexivity.
  - intros c H. simpl in H.
    repeat (destruct H as [<- | H]; [split; discriminate |]). contradiction.
  - intros c H. simpl in H.
    repeat (destruct H as [<- | H]; [split; discriminate |]). contradiction.
  - reflexivity.
  - reflexivity.
  - reflexivity.
  - discriminate.
  - discriminate.
  - reflexivity.
  - reflexivity.
  - discriminate.
Defined.

(** *** [check_monotonic_error] *)

Lemma glom_info_val (r : Result) (i : Z) :
  glom r (info_val i) no_kwargs
  = match py_index (info_vals r) i with
    | Some v => Return v
    | None => Raise (access_error (str_of_Z i) ("T[" ++ str_of_Z i ++ "]")
                       "IndexError('list index out of range')")
    end.
Proof.
  unfold glom, eval_spec, info_val, eval_steps, eval_step, getattr.
  cbn [String.eqb Ascii.eqb Bool.eqb obind].
  destruct (py_index (info_vals r) i); reflexivity.
Qed.

Lemma py_index_last_of_two {A} (pre : list A) (x y : A) :
  py_index (pre ++ [x; y])%list (-1) = Some y.
Proof.
  change (pre ++ [x; y])%list with (pre ++ [x] ++ [y])%list.
  rewrite app_assoc. apply py_index_last.
Qed.

Lemma py_index_last_but_one {A} (pre : list A) (x y : A) :
  py_index (pre ++ [x; y])%list (-2) = Some x.
Proof.
  unfold py_index. rewrite length_app. simpl List.length.
  replace (0 <=? -2) with false by reflexivity. simpl andb.
  replace (- Z.of_nat (List.length pre + 2) <=? -2) with true
    by (symmetry; apply Z.leb_le; lia).
  simpl.
  replace (Z.to_nat (Z.of_nat (List.length pre + 2) + -2)) with (List.length pre) by lia.
  rewrite nth_error_app2 by lia. rewrite Nat.sub_diag. reflexivity.
Qed.

(** The check on a record whose last two info values are [prev] and [cur]. *)
Lemma check_monotonic_error_two (r : Result) (pre : list pyval) (prev cur : pyval)
    (w : world) :
  info_vals r = (pre ++ [prev; cur])%list ->
  check_monotonic_error r w
  = (w,
     if xorb (is_None prev) (is_None cur) then Return PNone
     else
       let? delta := py_sub prev cur in
       let? below := py_lt_float delta fzero in
       if below
       then Return (PStr "Loss of monotonic convergence; error decrease < 0")
       else Return PNone).
Proof.
  intros H. unfold check_monotonic_error, _monotonic_convergence, delta_below, lift.
  rewrite (try_glom_Return no_kwargs r (info_val (-2)) None prev)
    by (rewrite glom_info_val, H, py_index_last_but_one; reflexivity).
  cbn [obind].
  rewrite (try_glom_Return no_kwargs r (info_val (-1)) None cur)
    by (rewrite glom_info_val, H, py_index_last_of_two; reflexivity).
  cbn [obind].
  destruct (xorb (is_None prev) (is_None cur)); [reflexivity |].
  destruct (py_sub prev cur) as [delta | e]; [| reflexivity].
  cbn [obind].
  change (py_float (PInt 0)) with (Return (A := spec_float) fzero). cbn [obind].
  destruct (py_lt_float delta fzero) as [[|] | e]; reflexivity.
Qed.

(** C5, as the code has it.  [check_monotonic_error] is [delta_below] with
    the limit [0], no absolute value, [spec1] the last-but-one and [spec0]
    the last info value.  On a record whose last two info values are two
    floats, or two integers, it returns the message [Loss of monotonic
    convergence; error decrease < 0] if the last one is greater than the
    last-but-one and [None] if it is not.  On a record with one info value
    that is not [None] it returns [None]; on a record with no info value it
    raises the failure of the extraction. *)
Theorem check_monotonic_error_spec (r : Result) (w : world) :
  check_monotonic_error
  = delta_below (PInt 0) (info_val (-2)) (info_val (-1)) false
      (Some "Loss of monotonic convergence; error decrease") no_kwargs
  /\ (forall pre prev cur,
        info_vals r = (pre ++ [PFloat prev; PFloat cur])%list ->
        is_binary64 prev -> is_binary64 cur ->
        check_monotonic_error r w
        = (w, Return (if flt prev cur
                      then PStr "Loss of monotonic convergence; error decrease < 0"
                      else PNone)))
  /\ (forall pre prev cur,
        info_vals r = (pre ++ [PInt prev; PInt cur])%list ->
        check_monotonic_error r w
        = (w, Return (if prev <? cur
                      then PStr "Loss of monotonic convergence; error decrease < 0"
                      else PNone)))
  /\ (forall v, info_vals r = [v] -> is_None v = false ->
        check_monotonic_error r w = (w, Return PNone))
  /\ (info_vals r = [] ->
        check_monotonic_error r w
        = (w, Raise (access_error "-1" "T[-1]" "IndexError('list index out of range')"))).
Proof.
  split; [reflexivity |]. split; [| split; [| split]].
  - intros pre prev cur H Vp Vc.
    rewrite (check_monotonic_error_two r pre _ _ w H).
    cbn [is_None xorb py_sub obind py_lt_float].
    rewrite (fsub_lt_zero prev cur Vp Vc).
    destruct (flt prev cur); reflexivity.
  - intros pre prev cur H.
    rewrite (check_monotonic_error_two r pre _ _ w H).
    cbn [is_None xorb py_sub as_int obind py_lt_float Z_lt_float fzero].
    replace (prev - cur <? 0) with (prev <? cur)
      by (destruct (Z.ltb_spec prev cur), (Z.ltb_spec (prev - cur) 0); lia || reflexivity).
    destruct (prev <? cur); reflexivity.
  - intros v H Hv.
    unfold check_monotonic_error, _monotonic_convergence, delta_below, lift.
    rewrite (try_glom_caught no_kwargs r (info_val (-2)) None
               (access_error "-2" "T[-2]" "IndexError('list index out of range')"))
      by (rewrite ?glom_info_val, ?H; reflexivity).
    cbn [obind].
    rewrite (try_glom_Return no_kwargs r (info_val (-1)) _ v)
      by (rewrite glom_info_val, H; reflexivity).
    cbn [obind is_None xorb]. rewrite Hv. reflexivity.
  - intros H.
    unfold check_monotonic_error, _monotonic_convergence, delta_below, lift.
    rewrite (try_glom_caught no_kwargs r (info_val (-2)) None
               (access_error "-2" "T[-2]" "IndexError('list index out of range')"))
      by (rewrite ?glom_info_val, ?H; reflexivity).
    cbn [obind].
    rewrite (try_glom_caught no_kwargs r (info_val (-1)) _
               (access_error "-1" "T[-1]" "IndexError('list index out of range')"))
      by (rewrite ?glom_info_val, ?H; reflexivity).
    reflexivity.
Qed.

(** The docstring of [check_monotonic_error]: the info values [9e-1],
    [1e-1], [2e-1], one more at each call. *)
Lemma check_monotonic_error_spec_witness :
  check_monotonic_error (record_of [PFloat (float_lit "9e-1")]) [] = ([], Return PNone)
  /\ check_monotonic_error
       (record_of [PFloat (float_lit "9e-1"); PFloat (float_lit "1e-1")]) []
     = ([], Return PNone)
  /\ check_monotonic_error
       (record_of [PFloat (float_lit "9e-1"); PFloat (float_lit "1e-1");
                   PFloat (float_lit "2e-1")]) []
     = ([], Return (PStr "Loss of monotonic convergence; error decrease < 0")).
Proof.
  split; [| split].
  - exact (proj1 (proj2 (proj2 (proj2
             (check_monotonic_error_spec (record_of [PFloat (float_lit "9e-1")]) []))))
             (PFloat (float_lit "9e-1")) eq_refl eq_refl).
  - exact (proj1 (proj2
             (check_monotonic_error_spec
                (record_of [PFloat (float_lit "9e-1"); PFloat (float_lit "1e-1")]) []))
             [] (float_lit "9e-1") (float_lit "1e-1") eq_refl eq_refl eq_refl).
  - exact (proj1 (proj2
             (check_monotonic_error_spec
                (record_of [PFloat (float_lit "9e-1"); PFloat (float_lit "1e-1");
                            PFloat (float_lit "2e-1")]) []))
             [PFloat (float_lit "9e-1")] (float_lit "1e-1") (float_lit "2e-1")
             eq_refl eq_refl eq_refl).
Defined.

(** C5 as stated fails on a record with fewer than two info values, the
    one with none: both extractions fail and the check raises.  The
    equivalence fails too when an integer meets a float: after the float
    [2^53] comes the integer [2^53 + 1], which is greater, but the
    difference is computed in binary64 and is [0.0]. *)
Lemma check_monotonic_error_no_info_value :
  ((List.length (info_vals (record_of [])) < 2)%nat
   /\ check_monotonic_error (record_of []) []
      = ([], Raise (access_error "-1" "T[-1]" "IndexError('list index out of range')")))
  /\ (py_gt_float (PInt (2 ^ 53 + 1)) (float_lit "9007199254740992") = Return true
      /\ check_monotonic_error
           (record_of [PFloat (float_lit "9007199254740992"); PInt (2 ^ 53 + 1)]) []
         = ([], Return PNone)).
Proof. repeat split; try reflexivity. simpl. lia. Qed.

(** *** [check_monotonic_fidelity] *)

Lemma check_monotonic_fidelity_two (r : Result) (pre : list pyval) (prev cur : pyval)
    (w : world) :
  info_vals r = (pre ++ [prev; cur])%list ->
  check_monotonic_fidelity r w
  = (w,
     if xorb (is_None cur) (is_None prev) then Return PNone
     else
       let? delta := py_sub cur prev in
       let? below := py_lt_float delta fzero in
       if below
       then Return (PStr "Loss of monotonic convergence; fidelity increase < 0")
       else Return PNone).
Proof.
  intros H. unfold check_monotonic_fidelity, _monotonic_fidelity, delta_below, lift.
  rewrite (try_glom_Return no_kwargs r (info_val (-1)) None cur)
    by (rewrite glom_info_val, H, py_index_last_of_two; reflexivity).
  cbn [obind].
  rewrite (try_glom_Return no_kwargs r (info_val (-2)) None prev)
    by (rewrite glom_info_val, H, py_index_last_but_one; reflexivity).
  cbn [obind].
  destruct (xorb (is_None cur) (is_None prev)); [reflexivity |].
  destruct (py_sub cur prev) as [delta | e]; [| reflexivity].
  cbn [obind].
  change (py_float (PInt 0)) with (Return (A := spec_float) fzero). cbn [obind].
  destruct (py_lt_float delta fzero) as [[|] | e]; reflexivity.
Qed.

(** X21. [check_monotonic_fidelity] is [delta_below] with the limit [0], no
    absolute value, [spec1] the last and [spec0] the last-but-one info
    value.  On a record whose last two info values are two floats, or two
    integers, it returns the message [Loss of monotonic convergence;
    fidelity increase < 0] if the last one is below the last-but-one and
    [None] if it is not.  With one info value that is not [None] it returns
    [None]; with no info value it raises the failure of the extraction. *)
Theorem check_monotonic_fidelity_spec (r : Result) (w : world) :
  check_monotonic_fidelity
  = delta_below (PInt 0) (info_val (-1)) (info_val (-2)) false
      (Some "Loss of monotonic convergence; fidelity increase") no_kwargs
  /\ (forall pre prev cur,
        info_vals r = (pre ++ [PFloat prev; PFloat cur])%list ->
        is_binary64 prev -> is_binary64 cur ->
        check_monotonic_fidelity r w
        = (w, Return (if flt cur prev
                      then PStr "Loss of monotonic convergence; fidelity increase < 0"
                      else PNone)))
  /\ (forall pre prev cur,
        info_vals r = (pre ++ [PInt prev; PInt cur])%list ->
        check_monotonic_fidelity r w
        = (w, Return (if cur <? prev
                      then PStr "Loss of monotonic convergence; fidelity increase < 0"
                      else PNone)))
  /\ (forall v, info_vals r = [v] -> is_None v = false ->
        check_monotonic_fidelity r w = (w, Return PNone))
  /\ (info_vals r = [] ->
        check_monotonic_fidelity r w
        = (w, Raise (access_error "-2" "T[-2]" "IndexError('list index out of range')"))).
Proof.
  split; [reflexivity |]. split; [| split; [| split]].
  - intros pre prev cur H Vp Vc.
    rewrite (check_monotonic_fidelity_two r pre _ _ w H).
    cbn [is_None xorb py_sub obind py_lt_float].
    rewrite (fsub_lt_zero cur prev Vc Vp).
    destruct (flt cur prev); reflexivity.
  - intros pre prev cur H.
    rewrite (check_monotonic_fidelity_two r pre _ _ w H).
    cbn [is_None xorb py_sub as_int obind py_lt_float Z_lt_float fzero].
    replace (cur - prev <? 0) with (cur <? prev)
      by (destruct (Z.ltb_spec cur prev), (Z.ltb_spec (cur - prev) 0); lia || reflexivity).
    destruct (cur <? prev); reflexivity.
  - intros v H Hv.
    unfold check_monotonic_fidelity, _monotonic_fidelity, delta_below, lift.
    rewrite (try_glom_Return no_kwargs r (info_val (-1)) None v)
      by (rewrite glom_info_val, H; reflexivity).
    cbn [obind].
    rewrite (try_glom_caught no_kwargs r (info_val (-2)) None
               (access_error "-2" "T[-2]" "IndexError('list index out of range')"))
      by (rewrite ?glom_info_val, ?H; reflexivity).
    cbn [obind is_None xorb]. rewrite Hv. reflexivity.
  - intros H.
    unfold check_monotonic_fidelity, _monotonic_fidelity, delta_below, lift.
    rewrite (try_glom_caught no_kwargs r (info_val (-1)) None
               (access_error "-1" "T[-1]" "IndexError('list index out of range')"))
      by (rewrite ?glom_info_val, ?H; reflexivity).
    cbn [obind].
    rewrite (try_glom_caught no_kwargs r (info_val (-2)) _
               (access_error "-2" "T[-2]" "IndexError('list index out of range')"))
      by (rewrite ?glom_info_val, ?H; reflexivity).
    reflexivity.
Qed.

(** The docstring of [check_monotonic_fidelity]: [0.0], [0.2], [0.15]. *)
Lemma check_monotonic_fidelity_spec_witness :
  check_monotonic_fidelity
    (record_of [PFloat (float_lit "0.0"); PFloat (float_lit "0.2")]) []
  = ([], Return PNone)
  /\ check_monotonic_fidelity
       (record_of [PFloat (float_lit "0.0"); PFloat (float_lit "0.2");
                   PFloat (float_lit "0.15")]) []
     = ([], Return (PStr "Loss of monotonic convergence; fidelity increase < 0")).
Proof.
  split.
  - exact (proj1 (proj2
             (check_monotonic_fidelity_spec
                (record_of [PFloat (float_lit "0.0"); PFloat (float_lit "0.2")]) []))
             [] (float_lit "0.0") (float_lit "0.2") eq_refl eq_refl eq_refl).
  - exact (proj1 (proj2
             (check_monotonic_fidelity_spec
                (record_of [PFloat (float_lit "0.0"); PFloat (float_lit "0.2");
                            PFloat (float_lit "0.15")]) []))
             [PFloat (float_lit "0.0")] (float_lit "0.2") (float_lit "0.15")
             eq_refl eq_refl eq_refl).
Defined.

(** X22. On a record whose last two info values are floats, the two
    monotonicity checks never both report a loss: one of them returns
    [None]; and when neither value is below the other (equal values, or a
    NaN) both return [None]. *)
Theorem monotonic_checks_exclusive
    (r : Result) (pre : list pyval) (prev cur : spec_float) (w : world) :
  info_vals r = (pre ++ [PFloat prev; PFloat cur])%list ->
  is_binary64 prev -> is_binary64 cur ->
  (check_monotonic_error r w = (w, Return PNone)
   \/ check_monotonic_fidelity r w = (w, Return PNone))
  /\ (flt prev cur = false -> flt cur prev = false ->
      check_monotonic_error r w = (w, Return PNone)
      /\ check_monotonic_fidelity r w = (w, Return PNone)).
Proof.
  intros H Vp Vc.
  rewrite (check_monotonic_error_two r pre _ _ w H).
  rewrite (check_monotonic_fidelity_two r pre _ _ w H).
  cbn [is_None xorb py_sub obind py_lt_float].
  rewrite (fsub_lt_zero prev cur Vp Vc), (fsub_lt_zero cur prev Vc Vp).
  split.
  - destruct (flt prev cur) eqn:E.
    + right. rewrite (flt_asym _ _ E). reflexivity.
    + left. reflexivity.
  - intros -> ->. split; reflexivity.
Qed.

(** After [1e-1] comes [2e-1]: the error check reports, the fidelity check
    does not. *)
Lemma monotonic_checks_exclusive_witness :
  check_monotonic_error
    (record_of [PFloat (float_lit "1e-1"); PFloat (float_lit "2e-1")]) []
  = ([], Return PNone)
  \/ check_monotonic_fidelity
       (record_of [PFloat (float_lit "1e-1"); PFloat (float_lit "2e-1")]) []
     = ([], Return PNone).
Proof.
  exact (proj1 (monotonic_checks_exclusive
           (record_of [PFloat (float_lit "1e-1"); PFloat (float_lit "2e-1")])
           [] (float_lit "1e-1") (float_lit "2e-1") [] eq_refl eq_refl eq_refl)).
Defined.

(** *** The examples of the docstrings *)

(** [delta_below(limit='1e-4', name='ΔJ_T')] on the info values [9e-1],
    [1e-1], [4e-4], [2e-4], [1e-6], [1e-7], one more at each call: [None]
    five times, then the message. *)
Example delta_below_docstring :
  map (fun n =>
         snd (delta_below (PStr "1e-4") (info_val (-1)) (info_val (-2)) true
                (Some "ΔJ_T") no_kwargs
                (record_of (firstn n (map (fun s => PFloat (float_lit s))
                                        ["9e-1"; "1e-1"; "4e-4"; "2e-4"; "1e-6"; "1e-7"])))
                []))
      [1; 2; 3; 4; 5; 6]%nat
  = [Return PNone; Return PNone; Return PNone; Return PNone; Return PNone;
     Return (PStr "ΔJ_T < 1e-4")].
Proof. vm_compute. reflexivity. Qed.

(** Without a name the message carries the two specs; a float limit is
    printed by [str]. *)
Example delta_below_default_name :
  snd (delta_below (PFloat (float_lit "1e-4")) (info_val (-1)) (info_val (-2)) true None
         no_kwargs (record_of [PInt 3; PInt 3]) [])
  = Return (PStr "Δ(('info_vals', T[-1]),('info_vals', T[-2])) < 0.0001").
Proof. vm_compute. reflexivity. Qed.

(** [value_above(limit='0.999', name='Fidelity')]: [0.9], then [1 - 1e-6]. *)
Example value_above_docstring :
  snd (value_above (PStr "0.999") last_info_val (Some "Fidelity") no_kwargs
         (record_of [PFloat (float_lit "0.9")]) [])
  = Return PNone
  /\ snd (value_above (PStr "0.999") last_info_val (Some "Fidelity") no_kwargs
            (record_of [PFloat (float_lit "0.9");
                        PFloat (fsub (float_lit "1") (float_lit "1e-6"))]) [])
     = Return (PStr "Fidelity > 0.999").
Proof. split; vm_compute; reflexivity. Qed.

(** [check_monotonic_fidelity] on [0.0], [0.2], [0.15]. *)
Example check_monotonic_fidelity_docstring :
  map (fun n =>
         snd (check_monotonic_fidelity
                (record_of (firstn n (map (fun s => PFloat (float_lit s))
                                        ["0.0"; "0.2"; "0.15"])))
                []))
      [1; 2; 3]%nat
  = [Return PNone; Return PNone;
     Return (PStr "Loss of monotonic convergence; fidelity increase < 0")].
Proof. vm_compute. reflexivity. Qed.
